(** * pyosim: the analyze tool (src/pyosim/analyse_tool.py)

    A shallow embedding of the [AnalyzeTool] class: the XML parameter
    extractor ([parse_analyze_set_xml], [_str_to_list]), the per-trial driver
    ([run_analyze_tool]), the constructor and the two output-directory
    clean-up steps ([_remove_empty_files], [_subset_output]).

    Python values are modelled as the code has them: [str] as [string]
    (ASCII characters), the parameter dict as a [gmap string value], floats
    as binary64 primitive floats, exceptions as an error result.  The
    simulation engine (opensim) is opaque: its calls are recorded in a log
    and what they return or whether they fail is read from an environment. *)

From Stdlib Require Import ZArith List String Ascii.
From Stdlib Require Import Floats.PrimFloat Floats.SpecFloat Floats.FloatOps.
From stdpp Require Import base option list strings gmap.

Set Warnings "-register-all".
Local Open Scope string_scope.
Local Open Scope Z_scope.

(** ** Python built-ins used by the module *)

Module Py.

(** Exceptions the code can raise or let through.  [Fuel] is not a Python
    exception: it marks a bounded loop of the model running out of steps,
    and is shown never to happen. *)
Inductive exn : Type :=
| IndexError
| KeyError (key : string)
| TypeError
| AttributeError
| ValueError (msg : string)
| OverflowError
| RuntimeError (msg : string)
| ParseError
| FileNotFoundError (path : string)
| Fuel.

Inductive result (A : Type) : Type :=
| Ok (a : A)
| Raise (e : exn).
Arguments Ok {A} a.
Arguments Raise {A} e.

Definition rbind {A B} (r : result A) (k : A → result B) : result B :=
  match r with
  | Ok a => k a
  | Raise e => Raise e
  end.

#[global] Instance result_ret : MRet result := @Ok.
#[global] Instance result_bind : MBind result := λ A B k r, rbind r k.

(** *** str *)

(** [string[i]] for [i >= 0]. *)
Definition str_index (s : string) (i : nat) : result ascii :=
  match String.get i s with
  | Some c => Ok c
  | None => Raise IndexError
  end.

(** [string[count:]] for [count >= 0]; slicing never raises. *)
Fixpoint str_from (count : nat) (s : string) : string :=
  match count, s with
  | O, _ => s
  | S k, EmptyString => EmptyString
  | S k, String _ r => str_from k r
  end.

(** [s.startswith(p)]. *)
Definition startswith (s p : string) : bool := String.prefix p s.

(** [sub in s]. *)
Fixpoint contains (sub s : string) : bool :=
  String.prefix sub s ||
  match s with
  | EmptyString => false
  | String _ r => contains sub r
  end.

(** [s.split(" ")]: the separator is one space; adjacent separators and a
    separator at either end give empty tokens, and the result is never
    empty. *)
Fixpoint split_space (s : string) : list string :=
  match s with
  | EmptyString => [EmptyString]
  | String c r =>
      if Ascii.eqb c " " then EmptyString :: split_space r
      else match split_space r with
           | [] => [String c EmptyString]
           | t :: ts => String c t :: ts
           end
  end.

(** [s.replace(old, "")] for a non-empty [old]: occurrences are removed from
    left to right, without overlap.  [skip] counts the characters of the
    occurrence being dropped. *)
Fixpoint remove_all_from (old : string) (skip : nat) (s : string) : string :=
  match s with
  | EmptyString => EmptyString
  | String c r =>
      match skip with
      | S k => remove_all_from old k r
      | O =>
          if String.prefix old s
          then remove_all_from old (Nat.pred (String.length old)) r
          else String c (remove_all_from old O r)
      end
  end.

Definition str_remove (s old : string) : string :=
  match old with
  | EmptyString => s
  | _ => remove_all_from old O s
  end.

(** *** float(str)

    The grammar CPython accepts for an ASCII string: optional underscores
    between digits, surrounding white space, a sign, then [inf], [infinity]
    or [nan] in any case, or a decimal number with an optional exponent.
    The number is rounded to the nearest binary64 value, ties to even. *)

Definition is_digit (c : ascii) : bool :=
  let n := nat_of_ascii c in (48 <=? n)%nat && (n <=? 57)%nat.

Definition digit_val (c : ascii) : Z := Z.of_nat (nat_of_ascii c) - 48.

(** Py_ISSPACE: space, \t, \n, \v, \f and \r. *)
Definition is_space (c : ascii) : bool :=
  let n := nat_of_ascii c in ((9 <=? n)%nat && (n <=? 13)%nat) || (n =? 32)%nat.

Definition is_underscore (c : ascii) : bool := Ascii.eqb c "_".

(** Underscores are allowed only between two digits; they are dropped. *)
Fixpoint drop_underscores (prev : ascii) (s : list ascii) : option (list ascii) :=
  match s with
  | [] => if is_underscore prev then None else Some []
  | c :: r =>
      if is_underscore c then
        if is_digit prev then drop_underscores c r else None
      else if is_underscore prev && negb (is_digit c) then None
      else cons c <$> drop_underscores c r
  end.

Fixpoint lstrip (s : list ascii) : list ascii :=
  match s with
  | c :: r => if is_space c then lstrip r else s
  | [] => []
  end.

Definition rstrip (s : list ascii) : list ascii := rev (lstrip (rev s)).

Definition lower (c : ascii) : ascii :=
  let n := nat_of_ascii c in
  if (65 <=? n)%nat && (n <=? 90)%nat then ascii_of_nat (n + 32) else c.

Definition take_sign (s : list ascii) : bool * list ascii :=
  match s with
  | c :: r =>
      if Ascii.eqb c "-" then (true, r)
      else if Ascii.eqb c "+" then (false, r)
      else (false, s)
  | [] => (false, [])
  end.

Fixpoint take_digits (s : list ascii) : list ascii * list ascii :=
  match s with
  | c :: r =>
      if is_digit c then let '(ds, rest) := take_digits r in (c :: ds, rest)
      else ([], s)
  | [] => ([], [])
  end.

Definition digits_to_Z (ds : list ascii) : Z :=
  fold_left (fun acc c => 10 * acc + digit_val c) ds 0.

(** The value [m * 10 ^ e10] (with [0 <= m]) rounded to binary64. *)
Definition round_decimal (neg : bool) (m e10 : Z) : spec_float :=
  match m with
  | Zpos p =>
      if 0 <=? e10 then
        match m * 10 ^ e10 with
        | Zpos n => binary_round prec emax neg n 0
        | _ => S754_zero neg
        end
      else
        let d := 10 ^ (- e10) in
        let s := Z.max 0 (65 + Z.log2 d - Z.log2 m) in
        let n := m * 2 ^ s in
        let q := n / d in
        let r := n mod d in
        let loc := if r =? 0 then loc_Exact else loc_Inexact (2 * r ?= d) in
        binary_round_aux prec emax neg q (- s) loc
  | _ => S754_zero neg
  end.

(** A decimal number with all of [s] consumed: digits, an optional point,
    digits (one digit at least), an optional exponent with its digits. *)
Definition parse_decimal (neg : bool) (s : list ascii) : option spec_float :=
  let '(ip, r1) := take_digits s in
  let '(fp, r2) :=
    match r1 with
    | c :: r => if Ascii.eqb c "." then take_digits r else ([], r1)
    | [] => ([], r1)
    end in
  match (ip ++ fp)%list with
  | [] => None
  | ds =>
      let m := digits_to_Z ds in
      let frac := Z.of_nat (length fp) in
      match r2 with
      | [] => Some (round_decimal neg m (- frac))
      | c :: r =>
          if Ascii.eqb (lower c) "e" then
            let '(eneg, r3) := take_sign r in
            match take_digits r3 with
            | ((_ :: _) as es, []) =>
                let e := digits_to_Z es in
                Some (round_decimal neg m ((if eneg then - e else e) - frac))
            | _ => None
            end
          else None
      end
  end.

Definition parse_float (s : list ascii) : option spec_float :=
  let '(neg, r) := take_sign s in
  let word := string_of_list_ascii (map lower r) in
  if String.eqb word "inf" || String.eqb word "infinity"
  then Some (S754_infinity neg)
  else if String.eqb word "nan" then Some S754_nan
  else parse_decimal neg r.

Definition float_of_str (s : string) : option float :=
  cleaned ← drop_underscores "000"%char (list_ascii_of_string s);
  match lstrip cleaned with
  | [] => None
  | body => SF2Prim <$> parse_float (rstrip body)
  end.

(** [float(s)]: a ValueError when [s] is not a number. *)
Definition float_ (s : string) : result float :=
  match float_of_str s with
  | Some f => Ok f
  | None => Raise (ValueError "could not convert string to float")
  end.

(** *** Numbers given by the caller: an int or a float. *)
Inductive num : Type :=
| Int (z : Z)
| Float (f : float).

(** [bool(x)]: zero of either kind is false (also -0.0), NaN is true. *)
Definition num_truthy (x : num) : bool :=
  match x with
  | Int z => negb (z =? 0)
  | Float f => negb (PrimFloat.eqb f zero)
  end.

(** [x != -1]. *)
Definition num_ne_minus_one (x : num) : bool :=
  match x with
  | Int z => negb (z =? -1)
  | Float f => negb (PrimFloat.eqb f (PrimFloat.opp one))
  end.

(** [int(f)]: truncation towards zero. *)
Definition int_of_float (f : float) : result Z :=
  match Prim2SF f with
  | S754_zero _ => Ok 0
  | S754_infinity _ => Raise OverflowError
  | S754_nan => Raise (ValueError "cannot convert float NaN to integer")
  | S754_finite neg m e =>
      let a := Z.shiftl (Zpos m) e in Ok (if neg then - a else a)
  end.

(** *** The values of the parameter dict

    What [parse_analyze_set_xml] stores under a tag: [True]/[False], a
    float, [None], or a list of [str]. *)
Inductive value : Type :=
| VBool (b : bool)
| VFloat (f : float)
| VNone
| VList (tokens : list string).

(** [bool(v)]. *)
Definition truthy (v : value) : bool :=
  match v with
  | VBool b => b
  | VFloat f => negb (PrimFloat.eqb f zero)
  | VNone => false
  | VList [] => false
  | VList (_ :: _) => true
  end.

(** [int(v)]. *)
Definition int_ (v : value) : result Z :=
  match v with
  | VBool b => Ok (if b then 1 else 0)
  | VFloat f => int_of_float f
  | VNone | VList _ => Raise TypeError
  end.

(** [for x in v]: only a list can be iterated over. *)
Definition iter_ (v : value) : result (list string) :=
  match v with
  | VList l => Ok l
  | _ => Raise TypeError
  end.

(** [d[key]]. *)
Definition getitem (d : gmap string value) (key : string) : result value :=
  match d !! key with
  | Some v => Ok v
  | None => Raise (KeyError key)
  end.

(** Truth value of an optional [str] attribute ([None] and [""] are false). *)
Definition str_truthy (o : option string) : bool :=
  match o with
  | Some (String _ _) => true
  | _ => false
  end.

End Py.

(** ** pathlib

    A path is the string of its components joined by ["/"], without a
    trailing separator. *)

Module Pathlib.

(** Index of the last occurrence of [c] in [s], scanning from index [i]. *)
Fixpoint rfind_from (c : ascii) (s : string) (i : nat) (found : option nat) : option nat :=
  match s with
  | EmptyString => found
  | String x r => rfind_from c r (S i) (if Ascii.eqb x c then Some i else found)
  end.

Definition rfind (c : ascii) (s : string) : option nat := rfind_from c s O None.

(** [Path(p).name]: the final component; the empty path, whose string is
    ["."], has none. *)
Definition name (p : string) : string :=
  if String.eqb p "." then ""
  else match rfind "/" p with
       | Some i => Py.str_from (S i) p
       | None => p
       end.

(** [stem] of a final component: the name without its last suffix; a dot
    in first or last position does not start a suffix. *)
Definition stem_of_name (n : string) : string :=
  match rfind "." n with
  | Some i =>
      if (0 <? i)%nat && (i <? String.length n - 1)%nat
      then String.substring 0 i n
      else n
  | None => n
  end.

(** [Path(p).stem]. *)
Definition stem (p : string) : string := stem_of_name (name p).

(** [s.split("/")]. *)
Fixpoint split_slash (s : string) : list string :=
  match s with
  | EmptyString => [EmptyString]
  | String c r =>
      if Ascii.eqb c "/" then EmptyString :: split_slash r
      else match split_slash r with
           | [] => [String c EmptyString]
           | t :: ts => String c t :: ts
           end
  end.

(** ["/".join(parts)]. *)
Fixpoint join_slash (parts : list string) : string :=
  match parts with
  | [] => EmptyString
  | [t] => t
  | t :: rest => t ++ String "/" (join_slash rest)
  end.

(** The root of a POSIX path: ["/"], ["//"] for exactly two leading
    slashes, or none. *)
Definition root (s : string) : string :=
  if String.prefix "///" s then "/"
  else if String.prefix "//" s then "//"
  else if String.prefix "/" s then "/"
  else "".

(** [str(Path(s))] (POSIX flavour): empty components and ["."] components
    are dropped, so that repeated and trailing slashes and a leading ["./"]
    disappear; the empty path is ["."]. *)
Definition normalise (s : string) : string :=
  let parts :=
    List.filter (λ x, negb (String.eqb x "") && negb (String.eqb x "."))
                (split_slash s) in
  match root s ++ join_slash parts with
  | EmptyString => "."
  | path => path
  end.

Fixpoint ends_with_slash (s : string) : bool :=
  match s with
  | EmptyString => false
  | String c EmptyString => Ascii.eqb c "/"
  | String _ r => ends_with_slash r
  end.

(** [Path(a, b)]: an absolute [b] replaces [a]. *)
Definition join (a b : string) : string :=
  normalise
    (if String.prefix "/" b then b
     else match a with
          | EmptyString => b
          | _ => if ends_with_slash a then a ++ b else a ++ "/" ++ b
          end).

(** [p.resolve()] from the working directory [cwd] (links and [..] are
    left as they are). *)
Definition resolve (cwd p : string) : string := join cwd p.

End Pathlib.

(** ** xml.etree.ElementTree *)

Module ElementTree.

(** An element: its tag, the text before its first child ([None] when
    there is none) and its child elements in document order. *)
Inductive element : Type :=
| Element (tag : string) (text : option string) (children : list element).

Definition tag (e : element) : string :=
  match e with Element t _ _ => t end.
Definition text (e : element) : option string :=
  match e with Element _ x _ => x end.
Definition children (e : element) : list element :=
  match e with Element _ _ cs => cs end.

(** [e.iter()]: [e] and its descendants, in document order. *)
Fixpoint iter (e : element) : list element :=
  match e with
  | Element _ _ cs => e :: flat_map iter cs
  end.

(** [root.findall(".//" + node + "/*")] for a plain tag [node]: the
    children of every descendant of [root] (not of [root] itself as a
    match) whose tag is [node]. *)
Definition findall (root : element) (node : string) : list element :=
  flat_map children
    (filter (λ e, tag e = node) (flat_map iter (children root))).

End ElementTree.

(** ** The simulation engine (opensim), as the calls made into it *)

Module Osim.

(** What is passed to [setForcesFileName]: the [forces_file] attribute (a
    [str]) or the value found in the template. *)
Inductive forces_arg : Type :=
| FromAttribute (s : string)
| FromTemplate (v : Py.value).

Inductive call : Type :=
(* osim.Model *)
| Model (path : string)
| Model_initSystem
| Model_toString
| Model_addAnalysis
| Model_removeAnalysis
(* osim.Storage *)
| Storage (path : string)
| Storage_getFirstTime
| Storage_getLastTime
(* osim.ExternalLoads *)
| ExternalLoads (xml : string) (update : bool)
| ExternalLoads_setDataFileName (path : string)
| ExternalLoads_setExternalLoadsModelKinematicsFileName (path : string)
| ExternalLoads_setLowpassCutoffFrequencyForLoadKinematics (cutoff : Py.num)
| ExternalLoads_printToXML (path : string)
(* osim.ArrayStr *)
| ArrayStr
| ArrayStr_append (s : string)
(* the three analyses *)
| StaticOptimization
| StaticOptimization_setUseModelForceSet (v : Py.value)
| StaticOptimization_setActivationExponent (v : Py.value)
| StaticOptimization_setUseMusclePhysiology (v : Py.value)
| StaticOptimization_setConvergenceCriterion (v : Py.value)
| StaticOptimization_setMaxIterations (n : Z)
| MuscleAnalysis
| MuscleAnalysis_setCoordinates
| MuscleAnalysis_setMuscles
| JointReaction
| JointReaction_setForcesFileName (f : forces_arg)
| JointReaction_setJointNames
| JointReaction_setOnBody
| JointReaction_setInFrame
(* common to the analyses *)
| Analysis_setModel
| Analysis_setName (s : string)
| Analysis_setOn (v : Py.value)
| Analysis_setStepInterval (n : Z)
| Analysis_setInDegrees (v : Py.value)
| Analysis_setStartTime (t : Py.num)
| Analysis_setEndTime (t : Py.num)
| Analysis_printToXML (path : string)
(* osim.AnalyzeTool *)
| AnalyzeTool
| AnalyzeTool_setName (s : string)
| AnalyzeTool_setModel
| AnalyzeTool_setModelFilename (s : string)
| AnalyzeTool_setSolveForEquilibrium (b : bool)
| AnalyzeTool_setForceSetFiles
| AnalyzeTool_updateModelForces (xml : string)
| AnalyzeTool_setInitialTime (t : Py.num)
| AnalyzeTool_setFinalTime (t : Py.num)
| AnalyzeTool_setLowpassCutoffFrequency (cutoff : Py.num)
| AnalyzeTool_setCoordinatesFileName (path : string)
| AnalyzeTool_setExternalLoadsFileName (path : string)
| AnalyzeTool_setLoadModelAndInput (b : bool)
| AnalyzeTool_setResultsDir (path : string)
| AnalyzeTool_run.

(** The calls made before the analysis kind is looked at: loading the
    model, opening the motion file and writing the external loads. *)
Definition is_preparation (c : call) : bool :=
  match c with
  | Model _ | Model_initSystem
  | Storage _ | Storage_getFirstTime | Storage_getLastTime
  | ExternalLoads _ _ | ExternalLoads_setDataFileName _
  | ExternalLoads_setExternalLoadsModelKinematicsFileName _
  | ExternalLoads_setLowpassCutoffFrequencyForLoadKinematics _
  | ExternalLoads_printToXML _ => true
  | _ => false
  end.

End Osim.

(** ** Effects: the log, the output directory and errors *)

Inductive event : Type :=
| Print (line : string)
| Engine (c : Osim.call)
| Unlink (path : string).

(** The state the code acts on: what it printed and called so far, and the
    files of the output directory [sto_output] (file name to size in
    bytes).  Files elsewhere are not tracked; deleting one is only logged. *)
Record world : Type := World {
  log : list event;
  results : gmap string Z;
}.

(** What the code reads from outside: the working directory, the XML
    documents on disk ([None] for a file that [ElementTree.parse] cannot
    read, with the exception it raises then: FileNotFoundError for a
    missing file, ParseError for a malformed one), and the engine: which
    calls fail and with which exception (the binding raises RuntimeError
    for a failure inside the engine, TypeError for an argument it cannot
    convert), what a motion file and the model report, and what a run
    under a given tool name leaves in the output directory. *)
Record environment : Type := Environment {
  cwd : string;
  xml_documents : string → option ElementTree.element;
  engine_raises : Osim.call → bool;
  motion_first_time : string → float;
  motion_last_time : string → float;
  model_toString : string;
  engine_writes : string → gmap string Z → gmap string Z;
  xml_error : string → Py.exn;
  engine_error : Osim.call → Py.exn;
}.

Definition M (A : Type) : Type := world → Py.result A * world.

Definition ret {A} (a : A) : M A := λ w, (Py.Ok a, w).

Definition raise {A} (e : Py.exn) : M A := λ w, (Py.Raise e, w).

Definition bind {A B} (m : M A) (k : A → M B) : M B :=
  λ w, match m w with
       | (Py.Ok a, w') => k a w'
       | (Py.Raise e, w') => (Py.Raise e, w')
       end.

Definition lift {A} (r : Py.result A) : M A := λ w, (r, w).

#[global] Instance M_ret : MRet M := @ret.
#[global] Instance M_bind : MBind M := λ A B k m, bind m k.

Definition emit (ev : event) : M unit :=
  λ w, (Py.Ok tt, World (log w ++ [ev]) (results w)).

(** [for x in l: body(x)]. *)
Fixpoint for_each {A} (l : list A) (body : A → M unit) : M unit :=
  match l with
  | [] => ret tt
  | x :: r => body x ;; for_each r body
  end.

(** [if c: body]. *)
Definition when (c : bool) (body : M unit) : M unit :=
  if c then body else ret tt.

(** ** class AnalyzeTool *)

(** [model_input]: the path of a model file, or a model already loaded. *)
Inductive model_ref : Type :=
| ModelPath (path : string)
| ModelHandle.

(** A trial as the caller gives it: a [str] or a [Path]. *)
Inductive pathlike : Type :=
| AsStr (s : string)
| AsPath (p : string).

(** The instance: its class name ([cls.__name__]) and the attributes set
    by the constructor. *)
Record AnalyzeTool : Type := Self {
  class_name : string;
  model_input : model_ref;
  xml_input : string;
  xml_output : string;
  sto_output : string;
  xml_forces : option string;
  forces_file : option string;
  ext_forces_dir : option string;
  muscle_forces_dir : option string;
  xml_actuators : option string;
  prefix : option string;
  low_pass : option Py.num;
  remove_empty_files : bool;
  multi : bool;
  contains : option string;
  print_to_xml : bool;
  start_time : option Py.num;
  end_time : option Py.num;
  mot_files : list pathlike;
}.

(** The [time_range] argument: [None], a list or an array of numbers, or
    something else (a tuple, a single number). *)
Inductive time_range_arg : Type :=
| TimeRangeNone
| TimeRangeList (l : list Py.num)
| TimeRangeArray (l : list Py.num)
| TimeRangeTuple (l : list Py.num)
| TimeRangeNumber (x : Py.num).

(** The [mot_files] argument: a list, or a single trial. *)
Inductive mot_files_arg : Type :=
| MotList (l : list pathlike)
| MotSingle (p : pathlike).

(** [seq[i]] on a list or a one-dimensional array. *)
Definition seq_index {A} (l : list A) (i : nat) : Py.result A :=
  match l !! i with
  | Some x => Py.Ok x
  | None => Py.Raise Py.IndexError
  end.

(** [trial.stem]: a [str] has no such attribute. *)
Definition path_stem (trial : pathlike) : Py.result string :=
  match trial with
  | AsPath p => Py.Ok (Pathlib.stem p)
  | AsStr _ => Py.Raise Py.AttributeError
  end.

Definition get_class_name (self : AnalyzeTool) : string := class_name self.

(** *** The tokenizer *)

(** The [while car == " "] loop; [fuel] bounds its iterations. *)
Fixpoint skip_spaces (fuel : nat) (string : String.string) (count : nat) (car : ascii)
  : Py.result nat :=
  if Ascii.eqb car " " then
    match fuel with
    | O => Py.Raise Py.Fuel
    | S fuel' =>
        let count := S count in
        car ← Py.str_index string count;
        skip_spaces fuel' string count car
    end
  else Py.Ok count.

Definition _str_to_list (string : String.string) : Py.result (list String.string) :=
  let count := O in
  car ← Py.str_index string count;
  count ← skip_spaces (String.length string) string count car;
  let string := Py.str_from count string in
  Py.Ok (Py.split_space string).

(** *** The extractor *)

(** The local [isfloat]: [float(value)] tried, a ValueError caught. *)
Definition isfloat (value : string) : bool :=
  match Py.float_ value with
  | Py.Ok _ => true
  | Py.Raise _ => false
  end.

(** One turn of the loop over the child elements: [out.update({t.tag: ...})]. *)
Definition update_from (out : gmap string Py.value) (t : ElementTree.element)
  : Py.result (gmap string Py.value) :=
  let tag := ElementTree.tag t in
  if decide (ElementTree.text t = Some "true") then
    Py.Ok (<[tag := Py.VBool true]> out)
  else if decide (ElementTree.text t = Some "false") then
    Py.Ok (<[tag := Py.VBool false]> out)
  else
    match ElementTree.text t with
    | None => Py.Ok (<[tag := Py.VNone]> out)
    | Some text =>
        if isfloat text then
          f ← Py.float_ text;
          Py.Ok (<[tag := Py.VFloat f]> out)
        else
          li ← _str_to_list text;
          Py.Ok (<[tag := Py.VList li]> out)
    end.

Fixpoint update_all (out : gmap string Py.value) (ts : list ElementTree.element)
  : Py.result (gmap string Py.value) :=
  match ts with
  | [] => Py.Ok out
  | t :: rest => out' ← update_from out t; update_all out' rest
  end.

(** The extractor on a parsed document. *)
Definition extract (root : ElementTree.element) (node : string)
  : Py.result (gmap string Py.value) :=
  update_all ∅ (ElementTree.findall root node).

Section WithEnvironment.

Variable env : environment.

Definition parse_analyze_set_xml (filename node : string)
  : Py.result (gmap string Py.value) :=
  match xml_documents env filename with
  | None => Py.Raise (xml_error env filename)
  | Some root => extract root node
  end.

(** *** The output directory *)

(** [Path(directory).iterdir()]: the names present when the loop starts. *)
Definition iterdir : M (list string) :=
  λ w, (Py.Ok (map_to_list (results w)).*1, w).

(** [ifile.stat().st_size]. *)
Definition st_size (name : string) : M Z :=
  λ w, match results w !! name with
       | Some size => (Py.Ok size, w)
       | None => (Py.Raise (Py.FileNotFoundError name), w)
       end.

(** [ifile.unlink()] on a file of the output directory. *)
Definition unlink (name : string) : M unit :=
  λ w, match results w !! name with
       | Some _ => (Py.Ok tt, World (log w) (delete name (results w)))
       | None => (Py.Raise (Py.FileNotFoundError name), w)
       end.

Definition _remove_empty_files (threshold : Z) : M unit :=
  files ← iterdir;
  for_each files (λ ifile,
    size ← st_size ifile;
    when (size <? threshold) (unlink ifile)).

Definition _subset_output (contains : string) : M unit :=
  files ← iterdir;
  for_each files (λ ifile,
    when (negb (Py.contains contains (Pathlib.stem_of_name ifile)))
         (unlink ifile)).

(** *** One trial *)

(** A call into the engine: logged, then it returns or raises. *)
Definition engine (c : Osim.call) : M unit :=
  emit (Engine c);;
  if engine_raises env c then raise (engine_error env c) else ret tt.

Definition resolve (p : string) : string := Pathlib.resolve (cwd env) p.

(** The trial is skipped when a prefix is set and the stem lacks it. *)
Definition skipped (self : AnalyzeTool) (trial : pathlike) : Py.result bool :=
  match prefix self with
  | Some (String _ _ as p) =>
      stem ← path_stem trial;
      Py.Ok (negb (Py.startswith stem p))
  | _ => Py.Ok false
  end.

(** [# model] *)
Definition load_model (self : AnalyzeTool) : M unit :=
  match model_input self with
  | ModelPath path => engine (Osim.Model path)
  | ModelHandle => ret tt
  end;;
  engine Osim.Model_initSystem.

(** [# get starting and ending time] *)
Definition is_given (t : option Py.num) : option Py.num :=
  match t with
  | Some x => if Py.num_truthy x && Py.num_ne_minus_one x then Some x else None
  | None => None
  end.

Definition get_times (self : AnalyzeTool) (trial : string) : M (Py.num * Py.num) :=
  let motion := resolve trial in
  engine (Osim.Storage motion);;
  first_time ←
    match is_given (start_time self) with
    | Some x => ret x
    | None =>
        engine Osim.Storage_getFirstTime;;
        ret (Py.Float (motion_first_time env motion))
    end;
  last_time ←
    match is_given (end_time self) with
    | Some x => ret x
    | None =>
        engine Osim.Storage_getLastTime;;
        ret (Py.Float (motion_last_time env motion))
    end;
  ret (first_time, last_time).

(** [# prepare external forces xml file]; gives [temp_xml] when written. *)
Definition prepare_external_forces (self : AnalyzeTool) (trial stem : string)
  : M (option string) :=
  match xml_forces self with
  | Some (String _ _ as xml) =>
      engine (Osim.ExternalLoads xml true);;
      dir ← match ext_forces_dir self with
            | Some d => ret d
            | None => raise Py.TypeError
            end;
      let data :=
        match prefix self with
        | Some (String _ _ as p) =>
            resolve (Pathlib.join dir (Py.str_remove stem (p ++ "_"))) ++ ".sto"
        | _ => resolve (Pathlib.join dir stem) ++ ".sto"
        end in
      engine (Osim.ExternalLoads_setDataFileName data);;
      engine (Osim.ExternalLoads_setExternalLoadsModelKinematicsFileName
                (resolve trial));;
      match low_pass self with
      | Some cutoff =>
          when (Py.num_truthy cutoff)
            (engine (Osim.ExternalLoads_setLowpassCutoffFrequencyForLoadKinematics
                       cutoff))
      | None => ret tt
      end;;
      let temp_xml := stem ++ "_temp.xml" in
      engine (Osim.ExternalLoads_printToXML (resolve temp_xml));;
      ret (Some temp_xml)
  | _ => ret None
  end.

(** [arr = osim.ArrayStr(); for x in params[key]: arr.append(x)]. *)
Definition array_of (params : gmap string Py.value) (key : string) : M unit :=
  engine Osim.ArrayStr;;
  v ← lift (Py.getitem params key);
  l ← lift (Py.iter_ v);
  for_each l (λ x, engine (Osim.ArrayStr_append x)).

(** The analysis object for the class; gives [solve_for_equilibrium]. *)
Definition build_analysis (self : AnalyzeTool) (current_class : string)
    (params : gmap string Py.value) : M bool :=
  if decide (current_class = "StaticOptimization") then
    engine Osim.StaticOptimization;;
    v ← lift (Py.getitem params "use_model_force_set");
    engine (Osim.StaticOptimization_setUseModelForceSet v);;
    v ← lift (Py.getitem params "activation_exponent");
    engine (Osim.StaticOptimization_setActivationExponent v);;
    v ← lift (Py.getitem params "use_muscle_physiology");
    engine (Osim.StaticOptimization_setUseMusclePhysiology v);;
    v ← lift (Py.getitem params "optimizer_convergence_criterion");
    engine (Osim.StaticOptimization_setConvergenceCriterion v);;
    v ← lift (Py.getitem params "optimizer_max_iterations");
    n ← lift (Py.int_ v);
    engine (Osim.StaticOptimization_setMaxIterations n);;
    ret false
  else if decide (current_class = "MuscleAnalysis") then
    engine Osim.MuscleAnalysis;;
    array_of params "moment_arm_coordinate_list";;
    engine Osim.MuscleAnalysis_setCoordinates;;
    array_of params "muscle_list";;
    engine Osim.MuscleAnalysis_setMuscles;;
    ret true
  else if decide (current_class = "JointReaction") then
    engine Osim.JointReaction;;
    v ← lift (Py.getitem params "forces_file");
    when (Py.truthy v || Py.str_truthy (forces_file self))
      (let force_file :=
         match forces_file self with
         | Some (String _ _ as f) => Osim.FromAttribute f
         | _ => Osim.FromTemplate v
         end in
       engine (Osim.JointReaction_setForcesFileName force_file));;
    array_of params "joint_names";;
    engine Osim.JointReaction_setJointNames;;
    array_of params "apply_on_bodies";;
    engine Osim.JointReaction_setOnBody;;
    array_of params "express_in_frame";;
    engine Osim.JointReaction_setInFrame;;
    ret false
  else raise (Py.ValueError "AnalyzeTool must be called from a child class").

(** The settings shared by the three analyses, up to [model.addAnalysis]. *)
Definition configure_analysis (self : AnalyzeTool) (current_class : string)
    (params : gmap string Py.value) (first_time last_time : Py.num) : M unit :=
  engine Osim.Analysis_setModel;;
  engine (Osim.Analysis_setName current_class);;
  v ← lift (Py.getitem params "on");
  engine (Osim.Analysis_setOn v);;
  v ← lift (Py.getitem params "step_interval");
  n ← lift (Py.int_ v);
  engine (Osim.Analysis_setStepInterval n);;
  v ← lift (Py.getitem params "in_degrees");
  engine (Osim.Analysis_setInDegrees v);;
  engine (Osim.Analysis_setStartTime first_time);;
  engine (Osim.Analysis_setEndTime last_time);;
  engine Osim.Model_addAnalysis;;
  when (print_to_xml self)
    (engine (Osim.Analysis_printToXML
               (xml_output self ++ "/" ++ current_class ++ "_analysis.xml"))).

(** [analyze_tool.run()]: the engine writes its files for the tool [name]. *)
Definition write_results (name : string) : M unit :=
  λ w, (Py.Ok tt, World (log w) (engine_writes env name (results w))).

Definition run (name : string) : M unit :=
  engine Osim.AnalyzeTool_run;;
  write_results name.

(** [# analysis tool] *)
Definition analyze (self : AnalyzeTool) (trial stem : string)
    (solve_for_equilibrium : bool) (first_time last_time : Py.num)
    (temp_xml : option string) : M unit :=
  engine Osim.AnalyzeTool;;
  engine (Osim.AnalyzeTool_setName stem);;
  engine Osim.AnalyzeTool_setModel;;
  engine Osim.Model_toString;;
  engine (Osim.AnalyzeTool_setModelFilename (Pathlib.stem (model_toString env)));;
  engine (Osim.AnalyzeTool_setSolveForEquilibrium solve_for_equilibrium);;
  match xml_actuators self with
  | Some (String _ _ as actuators) =>
      engine Osim.ArrayStr;;
      engine (Osim.ArrayStr_append actuators);;
      engine Osim.AnalyzeTool_setForceSetFiles;;
      engine (Osim.AnalyzeTool_updateModelForces actuators)
  | _ => ret tt
  end;;
  engine (Osim.AnalyzeTool_setInitialTime first_time);;
  engine (Osim.AnalyzeTool_setFinalTime last_time);;
  match low_pass self with
  | Some cutoff =>
      when (Py.num_truthy cutoff)
        (engine (Osim.AnalyzeTool_setLowpassCutoffFrequency cutoff))
  | None => ret tt
  end;;
  engine (Osim.AnalyzeTool_setCoordinatesFileName (resolve trial));;
  match temp_xml with
  | Some temp => engine (Osim.AnalyzeTool_setExternalLoadsFileName temp)
  | None => ret tt
  end;;
  engine (Osim.AnalyzeTool_setLoadModelAndInput true);;
  engine (Osim.AnalyzeTool_setResultsDir (sto_output self));;
  run stem.

(** [# Remove analysis] and the optional clean-up. *)
Definition clean_up (self : AnalyzeTool) (temp_xml : option string) : M unit :=
  engine Osim.Model_removeAnalysis;;
  match temp_xml with
  | Some temp => emit (Unlink temp)
  | None => ret tt
  end;;
  when (remove_empty_files self) (_remove_empty_files 1000);;
  match contains self with
  | Some (String _ _ as c) => _subset_output c
  | _ => ret tt
  end.

(** The [else] branch of [run_analyze_tool], after its [print]. *)
Definition process_trial (self : AnalyzeTool) (trial stem : string) : M unit :=
  load_model self;;
  '(first_time, last_time) ← get_times self trial;
  temp_xml ← prepare_external_forces self trial stem;
  let current_class := get_class_name self in
  params ← lift (parse_analyze_set_xml (xml_input self) current_class);
  solve_for_equilibrium ← build_analysis self current_class params;
  configure_analysis self current_class params first_time last_time;;
  analyze self trial stem solve_for_equilibrium first_time last_time temp_xml;;
  clean_up self temp_xml.

(** The [else] branch of [run_analyze_tool]. *)
Definition process (self : AnalyzeTool) (trial : pathlike) : M unit :=
  stem ← lift (path_stem trial);
  emit (Print (String "009" stem));;
  process_trial self (match trial with AsPath p => p | AsStr s => s end) stem.

Definition run_analyze_tool (self : AnalyzeTool) (trial : pathlike) : M unit :=
  skip ← lift (skipped self trial);
  if skip : bool then ret tt else process self trial.

(** *** The constructor *)

(** [Pool(os.cpu_count()).map(f, trials)]: the worker pool is outside the
    model; it is given [f] and the trials. *)
Variable pool_map : (pathlike → M unit) → list pathlike → M unit.

Definition main_loop (self : AnalyzeTool) : M unit :=
  if multi self then pool_map (run_analyze_tool self) (mot_files self)
  else for_each (mot_files self) (λ itrial, run_analyze_tool self itrial).

(** The arguments of the constructor. *)
Record arguments : Type := Arguments {
  arg_model_input : model_ref;
  arg_xml_input : string;
  arg_xml_output : string;
  arg_sto_output : string;
  arg_mot_files : mot_files_arg;
  arg_forces_file : option string;
  arg_xml_forces : option string;
  arg_ext_forces_dir : option string;
  arg_muscle_forces_dir : option string;
  arg_xml_actuators : option string;
  arg_prefix : option string;
  arg_low_pass : option Py.num;
  arg_remove_empty_files : bool;
  arg_multi : bool;
  arg_contains : option string;
  arg_print_to_xml : bool;
  arg_time_range : time_range_arg;
}.

(** The [time_range] test: gives [start_time] and [end_time]. *)
Definition set_time_range (time_range : time_range_arg)
  : Py.result (option Py.num * option Py.num) :=
  match time_range with
  | TimeRangeList l | TimeRangeArray l =>
      start ← seq_index l 0;
      end_ ← seq_index l 1;
      Py.Ok (Some start, Some end_)
  | TimeRangeNone => Py.Ok (None, None)
  | _ =>
      Py.Raise (Py.RuntimeError
        "Time range must be a list or an array of start and last time frame.")
  end.

(** The [mot_files] normalisation: a list, of [Path] when its first
    element is not one. *)
Definition set_mot_files (mot_files : mot_files_arg) : Py.result (list pathlike) :=
  let files :=
    match mot_files with
    | MotList l => l
    | MotSingle p => [p]
    end in
  first ← seq_index files 0;
  match first with
  | AsPath _ => Py.Ok files
  | AsStr _ =>
      Py.Ok (map (λ i, match i with
                       | AsStr s => AsPath (Pathlib.normalise s)
                       | AsPath p => AsPath p
                       end)
                 files)
  end.

Definition __init__ (cls : string) (a : arguments) : M AnalyzeTool :=
  '(start_time, end_time) ← lift (set_time_range (arg_time_range a));
  mot_files ← lift (set_mot_files (arg_mot_files a));
  let self :=
    {| class_name := cls;
       model_input := arg_model_input a;
       xml_input := arg_xml_input a;
       xml_output := arg_xml_output a;
       sto_output := arg_sto_output a;
       xml_forces := arg_xml_forces a;
       forces_file := arg_forces_file a;
       ext_forces_dir := arg_ext_forces_dir a;
       muscle_forces_dir := arg_muscle_forces_dir a;
       xml_actuators := arg_xml_actuators a;
       prefix := arg_prefix a;
       low_pass := arg_low_pass a;
       remove_empty_files := arg_remove_empty_files a;
       multi := arg_multi a;
       contains := arg_contains a;
       print_to_xml := arg_print_to_xml a;
       start_time := start_time;
       end_time := end_time;
       mot_files := mot_files |} in
  main_loop self;;
  ret self.

End WithEnvironment.

(** * Properties *)

(** ** The tokenizer *)

(** The text is made of spaces only (the empty text included). *)
Fixpoint only_spaces (s : string) : bool :=
  match s with
  | EmptyString => true
  | String c r => Ascii.eqb c " " && only_spaces r
  end.

(** The text without its leading spaces. *)
Fixpoint lstrip_spaces (s : string) : string :=
  match s with
  | EmptyString => EmptyString
  | String c r => if Ascii.eqb c " " then lstrip_spaces r else s
  end.

(** The number of leading spaces. *)
Fixpoint leading_spaces (s : string) : nat :=
  match s with
  | EmptyString => O
  | String c r => if Ascii.eqb c " " then S (leading_spaces r) else O
  end.

(** The value the extractor stores for a text that does not make the
    tokenizer fail. *)
Definition value_of_text (x : option string) : Py.value :=
  match x with
  | None => Py.VNone
  | Some s =>
      if String.eqb s "true" then Py.VBool true
      else if String.eqb s "false" then Py.VBool false
      else match Py.float_of_str s with
           | Some f => Py.VFloat f
           | None => Py.VList (Py.split_space (lstrip_spaces s))
           end
  end.

(** The text of an element is not a non-[None] text of spaces. *)
Definition not_blank (t : ElementTree.element) : Prop :=
  ∀ s, ElementTree.text t = Some s → only_spaces s = false.

(** The dict after [out.update] for each child in turn, when no text makes
    the tokenizer fail. *)
Definition updated (out : gmap string Py.value) (ts : list ElementTree.element)
  : gmap string Py.value :=
  foldl (λ m t, <[ElementTree.tag t := value_of_text (ElementTree.text t)]> m)
        out ts.

(** [" ".join(tokens)]. *)
Fixpoint join_space (tokens : list string) : string :=
  match tokens with
  | [] => EmptyString
  | [t] => t
  | t :: rest => t ++ String " " (join_space rest)
  end.

(** The text holds no space. *)
Fixpoint no_space (s : string) : bool :=
  match s with
  | EmptyString => true
  | String c r => negb (Ascii.eqb c " ") && no_space r
  end.

(** The number of spaces of a text. *)
Fixpoint count_spaces (s : string) : nat :=
  match s with
  | EmptyString => O
  | String c r => if Ascii.eqb c " " then S (count_spaces r) else count_spaces r
  end.

(** The window of a trial: the time range where it is given, the times of
    the motion file otherwise. *)
Definition window_start (env : environment) (self : AnalyzeTool)
    (trial : string) : Py.num :=
  default (Py.Float (motion_first_time env (resolve env trial)))
          (is_given (start_time self)).

Definition window_end (env : environment) (self : AnalyzeTool)
    (trial : string) : Py.num :=
  default (Py.Float (motion_last_time env (resolve env trial)))
          (is_given (end_time self)).

(** An event that sets a start or end time sets it to [first] or [last]. *)
Definition carries_window (first last : Py.num) (ev : event) : Prop :=
  match ev with
  | Engine (Osim.Analysis_setStartTime t)
  | Engine (Osim.AnalyzeTool_setInitialTime t) => t = first
  | Engine (Osim.Analysis_setEndTime t)
  | Engine (Osim.AnalyzeTool_setFinalTime t) => t = last
  | _ => True
  end.

(** The analysis stays attached and the temporary file stays on disk. *)
Definition leaves_attached (ev : event) : Prop :=
  ev ≠ Engine Osim.Model_removeAnalysis ∧ ∀ path, ev ≠ Unlink path.

(** [visits req m]: when [m] returns, the events it logged hold the events
    [req], in that order. *)
Definition visits (req : list event) {A} (m : M A) : Prop :=
  ∀ w, match (m w).1 with
       | Py.Ok _ =>
           ∃ evs, log (m w).2 = (log w ++ evs)%list ∧ sublist req evs
       | Py.Raise _ => True
       end.

(** A batch of trials for an instance. *)
Definition with_trials (self : AnalyzeTool) (trials : list pathlike)
  : AnalyzeTool :=
  {| class_name := class_name self;
     model_input := model_input self;
     xml_input := xml_input self;
     xml_output := xml_output self;
     sto_output := sto_output self;
     xml_forces := xml_forces self;
     forces_file := forces_file self;
     ext_forces_dir := ext_forces_dir self;
     muscle_forces_dir := muscle_forces_dir self;
     xml_actuators := xml_actuators self;
     prefix := prefix self;
     low_pass := low_pass self;
     remove_empty_files := remove_empty_files self;
     multi := multi self;
     contains := contains self;
     print_to_xml := print_to_xml self;
     start_time := start_time self;
     end_time := end_time self;
     mot_files := trials |}.

(** The string of a trial, [str] or [Path]. *)
Definition trial_name (t : pathlike) : string :=
  match t with
  | AsStr s => s
  | AsPath p => p
  end.

(** The trials as given, as a list. *)
Definition given_trials (arg : mot_files_arg) : list pathlike :=
  match arg with
  | MotList l => l
  | MotSingle p => [p]
  end.

(** What a template must hold for the class [cls]: the keys the code reads,
    a value that [int] accepts where it converts one, a token list where it
    iterates over one. *)
Definition holds (params : gmap string Py.value) (key : string) : Prop :=
  is_Some (params !! key).

Definition holds_int (params : gmap string Py.value) (key : string) : Prop :=
  ∃ v n, params !! key = Some v ∧ Py.int_ v = Py.Ok n.

Definition holds_list (params : gmap string Py.value) (key : string) : Prop :=
  ∃ l, params !! key = Some (Py.VList l).

Definition template_ok (cls : string) (params : gmap string Py.value) : Prop :=
  holds params "on" ∧ holds_int params "step_interval" ∧
  holds params "in_degrees" ∧
  ((cls = "StaticOptimization" ∧
    holds params "use_model_force_set" ∧
    holds params "activation_exponent" ∧
    holds params "use_muscle_physiology" ∧
    holds params "optimizer_convergence_criterion" ∧
    holds_int params "optimizer_max_iterations") ∨
   (cls = "MuscleAnalysis" ∧
    holds_list params "moment_arm_coordinate_list" ∧
    holds_list params "muscle_list") ∨
   (cls = "JointReaction" ∧
    holds params "forces_file" ∧
    holds_list params "joint_names" ∧
    holds_list params "apply_on_bodies" ∧
    holds_list params "express_in_frame")).

(** What the extractor reads from [so_template]. *)
Definition so_params : gmap string Py.value :=
  list_to_map
    [("on", Py.VBool true);
     ("step_interval", Py.VFloat 1);
     ("in_degrees", Py.VBool true);
     ("use_model_force_set", Py.VBool false);
     ("activation_exponent", Py.VFloat 2);
     ("use_muscle_physiology", Py.VBool true);
     ("optimizer_convergence_criterion", Py.VFloat 0x1.a36e2eb1c432dp-14);
     ("optimizer_max_iterations", Py.VFloat 100);
     ("start_time", Py.VNone)].

(** The constructor got past the time-range test with [start] and [end_]:
    either the trials cannot be listed and it raises that error at once, or
    it builds the instance with that start and end and runs the main loop,
    whose error, if any, is the constructor's. *)
Definition construction_proceeds (env : environment)
    (pool : (pathlike → M unit) → list pathlike → M unit)
    (cls : string) (a : arguments) (w : world)
    (start end_ : option Py.num) : Prop :=
  (∃ e, set_mot_files (arg_mot_files a) = Py.Raise e ∧
        __init__ env pool cls a w = (Py.Raise e, w)) ∨
  (∃ self,
     set_mot_files (arg_mot_files a) = Py.Ok (mot_files self) ∧
     class_name self = cls ∧
     start_time self = start ∧ end_time self = end_ ∧
     __init__ env pool cls a w =
       match main_loop env pool self w with
       | (Py.Ok _, w') => (Py.Ok self, w')
       | (Py.Raise e, w') => (Py.Raise e, w')
       end).

(** ** Specifications of effectful code *)

(** [triple m P Q E]: from any state, [m] only appends events that satisfy
    [P] to the log, its value satisfies [Q] when it returns and its
    exception satisfies [E] when it raises. *)
Definition triple {A} (m : M A) (P : event → Prop) (Q : A → Prop)
    (E : Py.exn → Prop) : Prop :=
  ∀ w, ∃ evs,
    log (m w).2 = (log w ++ evs)%list ∧ Forall P evs ∧
    match (m w).1 with
    | Py.Ok a => Q a
    | Py.Raise e => E e
    end.

(** The events of the preparation of a trial. *)
Definition preparation (ev : event) : Prop :=
  ∃ c, ev = Engine c ∧ Osim.is_preparation c = true.

(** ** Sample data *)

Definition leaf (tag text : string) : ElementTree.element :=
  ElementTree.Element tag (Some text) [].

(** A template with one analysis node [node] holding [children]. *)
Definition template (node : string) (children : list ElementTree.element)
  : ElementTree.element :=
  ElementTree.Element "OpenSimDocument" None
    [ElementTree.Element "AnalyzeTool" None
       [ElementTree.Element "AnalysisSet" None
          [ElementTree.Element "objects" None
             [ElementTree.Element node None children]]]].

Definition so_template : ElementTree.element :=
  template "StaticOptimization"
    [leaf "on" "true";
     leaf "step_interval" "1";
     leaf "in_degrees" "true";
     leaf "use_model_force_set" "false";
     leaf "activation_exponent" "2";
     leaf "use_muscle_physiology" "true";
     leaf "optimizer_convergence_criterion" "0.0001";
     leaf "optimizer_max_iterations" "100";
     ElementTree.Element "start_time" None []].

(** The same tag twice. *)
Definition repeated_template : ElementTree.element :=
  template "JointReaction"
    [leaf "joint_names" "true"; leaf "joint_names" "a b"].

(** A text of three spaces. *)
Definition blank_template : ElementTree.element :=
  template "JointReaction" [leaf "forces_file" "   "].

(** An environment where the template is [doc], no engine call fails, the
    motion files run from 1.5 s to 9 s and a run writes one file of 5000
    bytes. *)
Definition sample_env (doc : ElementTree.element) : environment :=
  {| cwd := "/work";
     xml_documents := λ f, if String.eqb f "template.xml" then Some doc else None;
     engine_raises := λ _, false;
     motion_first_time := λ _, 1.5%float;
     motion_last_time := λ _, 9%float;
     model_toString := "wu_scaled.osim";
     engine_writes := λ name files, <[name ++ "_force.sto" := 5000]> files;
     xml_error := λ f, Py.FileNotFoundError f;
     engine_error := λ _, Py.RuntimeError "std::exception in opensim" |}.

(** An instance of class [cls] for the trial "wu_walk01.mot". *)
Definition sample_self (cls : string) (prefix : option string)
    (start_time end_time : option Py.num) : AnalyzeTool :=
  {| class_name := cls;
     model_input := ModelPath "/models/wu_scaled.osim";
     xml_input := "template.xml";
     xml_output := "/xml";
     sto_output := "/out";
     xml_forces := None;
     forces_file := None;
     ext_forces_dir := None;
     muscle_forces_dir := None;
     xml_actuators := None;
     prefix := prefix;
     low_pass := None;
     remove_empty_files := true;
     multi := false;
     contains := None;
     print_to_xml := false;
     start_time := start_time;
     end_time := end_time;
     mot_files := [AsPath "wu_walk01.mot"] |}.

(** The arguments that build it. *)
Definition sample_arguments (time_range : time_range_arg) : arguments :=
  {| arg_model_input := ModelPath "/models/wu_scaled.osim";
     arg_xml_input := "template.xml";
     arg_xml_output := "/xml";
     arg_sto_output := "/out";
     arg_mot_files := MotList [AsPath "wu_walk01.mot"];
     arg_forces_file := None;
     arg_xml_forces := None;
     arg_ext_forces_dir := None;
     arg_muscle_forces_dir := None;
     arg_xml_actuators := None;
     arg_prefix := None;
     arg_low_pass := None;
     arg_remove_empty_files := true;
     arg_multi := false;
     arg_contains := None;
     arg_print_to_xml := false;
     arg_time_range := time_range |}.

(** A pool that runs the trials one after the other. *)
Definition sequential_pool (f : pathlike → M unit) (trials : list pathlike)
  : M unit :=
  for_each trials f.

Definition empty_world : world := World [] ∅.

(** The first call a processed trial makes into the engine. *)
Definition first_engine_call (self : AnalyzeTool) : Osim.call :=
  match model_input self with
  | ModelPath path => Osim.Model path
  | ModelHandle => Osim.Model_initSystem
  end.

(** The constructor of the analysis of a class. *)
Definition analysis_constructor (cls : string) : Osim.call :=
  if decide (cls = "StaticOptimization") then Osim.StaticOptimization
  else if decide (cls = "MuscleAnalysis") then Osim.MuscleAnalysis
  else Osim.JointReaction.

(** The calls a processed trial has made when it returns, in this order:
    the model is initialised, the motion file of the trial is opened, the
    analysis of the class is built, given the window of the trial and
    attached; the analyze tool is built, named after the trial, given the
    same window, the motion file of the trial and the output directory; it
    is run, and the analysis is removed. *)
Definition trial_calls (env : environment) (self : AnalyzeTool) (p : string)
  : list event :=
  [Engine Osim.Model_initSystem;
   Engine (Osim.Storage (resolve env p));
   Engine (analysis_constructor (class_name self));
   Engine (Osim.Analysis_setStartTime (window_start env self p));
   Engine (Osim.Analysis_setEndTime (window_end env self p));
   Engine Osim.Model_addAnalysis;
   Engine Osim.AnalyzeTool;
   Engine (Osim.AnalyzeTool_setName (Pathlib.stem p));
   Engine (Osim.AnalyzeTool_setInitialTime (window_start env self p));
   Engine (Osim.AnalyzeTool_setFinalTime (window_end env self p));
   Engine (Osim.AnalyzeTool_setCoordinatesFileName (resolve env p));
   Engine (Osim.AnalyzeTool_setResultsDir (sto_output self));
   Engine Osim.AnalyzeTool_run;
   Engine Osim.Model_removeAnalysis].

(** The trial was processed: the run printed its stem, then called the
    engine for the model; and when the run returned, it had made the calls
    of [trial_calls] in their order. *)
Definition processed (env : environment) (self : AnalyzeTool) (p : string)
    (w : world) : Prop :=
  ∃ evs,
    log (run_analyze_tool env self (AsPath p) w).2 =
      (log w ++ Print (String "009" (Pathlib.stem p))
             :: Engine (first_engine_call self) :: evs)%list ∧
    ((run_analyze_tool env self (AsPath p) w).1 = Py.Ok tt →
     sublist (trial_calls env self p)
             (Engine (first_engine_call self) :: evs)).

(** The message of the constructor's RuntimeError. *)
Definition time_range_message : string :=
  "Time range must be a list or an array of start and last time frame.".

(** The message of the ValueError for an unknown class. *)
Definition child_class_message : string :=
  "AnalyzeTool must be called from a child class".

Lemma append_cons (x : ascii) (a b : string) :
  String x a ++ b = String x (a ++ b).
Proof. reflexivity. Qed.

Lemma append_nil (b : string) : EmptyString ++ b = b.
Proof. reflexivity. Qed.

Lemma get_append_length (pre : string) (c : ascii) (r : string) :
  String.get (String.length pre) (pre ++ String c r) = Some c.
Proof.
  induction pre as [|x pre IH]; [reflexivity |].
  rewrite append_cons. exact IH.
Qed.

Lemma get_append_end (pre : string) :
  String.get (String.length pre) pre = None.
Proof. induction pre as [|x pre IH]; simpl; [reflexivity | exact IH]. Qed.

Lemma append_String_assoc (pre : string) (c : ascii) (r : string) :
  pre ++ String c r = (pre ++ String c EmptyString) ++ r.
Proof.
  induction pre as [|x pre IH]; [reflexivity |].
  rewrite !append_cons. by rewrite IH.
Qed.

Lemma length_append_one (pre : string) (c : ascii) :
  String.length (pre ++ String c EmptyString) = S (String.length pre).
Proof.
  induction pre as [|x pre IH]; [reflexivity |].
  rewrite append_cons. simpl. by rewrite IH.
Qed.

Lemma str_from_append (pre t : string) (n : nat) :
  Py.str_from (String.length pre + n) (pre ++ t) = Py.str_from n t.
Proof.
  induction pre as [|x pre IH]; [reflexivity |].
  rewrite append_cons. exact IH.
Qed.

Lemma str_from_leading (t : string) :
  Py.str_from (leading_spaces t) t = lstrip_spaces t.
Proof.
  induction t as [|c r IH]; simpl; [reflexivity |].
  destruct (Ascii.eqb c " "); simpl; [exact IH | reflexivity].
Qed.

(** The loop started on [car = string[count]] with enough fuel: it runs off
    the end when only spaces follow, and stops on the first other character
    otherwise. *)
Lemma skip_spaces_spec (rest : string) :
  ∀ (fuel : nat) (pre : string) (car : ascii),
    (String.length rest < fuel)%nat →
    skip_spaces fuel (pre ++ String car rest) (String.length pre) car =
      if only_spaces (String car rest) then Py.Raise Py.IndexError
      else Py.Ok (String.length pre + leading_spaces (String car rest))%nat.
Proof.
  induction rest as [|c rest IH]; intros fuel pre car Hfuel.
  - destruct fuel as [|fuel]; [inversion Hfuel |].
    simpl. destruct (Ascii.eqb car " ") eqn:Hcar; simpl.
    + unfold Py.str_index.
      replace (S (String.length pre))
        with (String.length (pre ++ String car EmptyString))
        by apply length_append_one.
      by rewrite get_append_end.
    + by rewrite Nat.add_0_r.
  - destruct fuel as [|fuel]; [inversion Hfuel |].
    simpl in Hfuel. apply Nat.succ_lt_mono in Hfuel.
    cbn [skip_spaces]. destruct (Ascii.eqb car " ") eqn:Hcar.
    + unfold Py.str_index.
      rewrite (append_String_assoc pre car (String c rest)).
      rewrite <- (length_append_one pre car).
      rewrite get_append_length. cbn [mbind Py.result_bind Py.rbind].
      rewrite (IH fuel (pre ++ String car EmptyString) c Hfuel).
      cbn [only_spaces leading_spaces]. rewrite Hcar. cbn [andb].
      destruct (Ascii.eqb c " " && only_spaces rest); [reflexivity |].
      rewrite length_append_one. f_equal. simpl. lia.
    + cbn [only_spaces leading_spaces]. rewrite Hcar. cbn [andb].
      by rewrite Nat.add_0_r.
Qed.

(** What the tokenizer does on every text. *)
Lemma _str_to_list_spec (s : string) :
  _str_to_list s =
    if only_spaces s then Py.Raise Py.IndexError
    else Py.Ok (Py.split_space (lstrip_spaces s)).
Proof.
  unfold _str_to_list. destruct s as [|car rest]; [reflexivity |].
  unfold Py.str_index. cbn [String.get mbind Py.result_bind Py.rbind].
  pose proof (skip_spaces_spec rest (String.length (String car rest))
                EmptyString car) as H.
  rewrite append_nil in H. cbn [String.length] in H |- *.
  rewrite H by lia.
  destruct (only_spaces (String car rest)); [reflexivity |].
  cbn [mbind Py.result_bind Py.rbind String.length Nat.add].
  by rewrite str_from_leading.
Qed.

(** The first token of a trimmed text that has one is not empty. *)
Lemma split_space_head (s : string) :
  only_spaces s = false →
  ∃ c t ts, Py.split_space (lstrip_spaces s) = String c t :: ts ∧ c ≠ " "%char.
Proof.
  induction s as [|c r IH]; intros H; [discriminate H |].
  cbn [only_spaces] in H. cbn [lstrip_spaces].
  destruct (Ascii.eqb_spec c " ") as [->|Hc].
  - apply IH, H.
  - cbn [Py.split_space].
    destruct (Ascii.eqb_spec c " ") as [Heq|_]; [by destruct Hc |].
    destruct (Py.split_space r) as [|t ts]; eauto.
Qed.

(** A text of spaces is not a number. *)
Lemma drop_underscores_spaces (l : list ascii) :
  ∀ prev, Py.is_underscore prev = false →
    forallb (λ c, Ascii.eqb c " ") l = true →
    Py.drop_underscores prev l = Some l.
Proof.
  induction l as [|c l IH]; intros prev Hprev Hl; simpl.
  - by rewrite Hprev.
  - simpl in Hl. apply andb_true_iff in Hl as [Hc Hl].
    apply Ascii.eqb_eq in Hc as ->.
    rewrite Hprev. cbn. by rewrite IH.
Qed.

Lemma lstrip_spaces_only (l : list ascii) :
  forallb (λ c, Ascii.eqb c " ") l = true → Py.lstrip l = [].
Proof.
  induction l as [|c l IH]; intros Hl; [reflexivity |].
  simpl in Hl. apply andb_true_iff in Hl as [Hc Hl].
  apply Ascii.eqb_eq in Hc as ->. simpl. by apply IH.
Qed.

Lemma only_spaces_forallb (s : string) :
  only_spaces s = forallb (λ c, Ascii.eqb c " ") (list_ascii_of_string s).
Proof. induction s as [|c r IH]; simpl; [reflexivity | by rewrite IH]. Qed.

Lemma float_of_str_spaces (s : string) :
  only_spaces s = true → Py.float_of_str s = None.
Proof.
  intros H. rewrite only_spaces_forallb in H. unfold Py.float_of_str.
  rewrite drop_underscores_spaces by (done || exact H). cbn.
  by rewrite lstrip_spaces_only.
Qed.

Lemma isfloat_spaces (s : string) : only_spaces s = true → isfloat s = false.
Proof.
  intros H. unfold isfloat, Py.float_. by rewrite float_of_str_spaces.
Qed.

(** ** The extractor *)

Lemma update_from_spec (out : gmap string Py.value) (t : ElementTree.element) :
  update_from out t =
    match ElementTree.text t with
    | Some s =>
        if only_spaces s then Py.Raise Py.IndexError
        else Py.Ok (<[ElementTree.tag t := value_of_text (Some s)]> out)
    | None => Py.Ok (<[ElementTree.tag t := Py.VNone]> out)
    end.
Proof.
  unfold update_from.
  destruct (decide (ElementTree.text t = Some "true")) as [->|Htrue];
    [reflexivity |].
  destruct (decide (ElementTree.text t = Some "false")) as [->|Hfalse];
    [reflexivity |].
  destruct (ElementTree.text t) as [s|]; [| reflexivity].
  unfold value_of_text.
  destruct (String.eqb_spec s "true") as [->|_]; [by destruct Htrue |].
  destruct (String.eqb_spec s "false") as [->|_]; [by destruct Hfalse |].
  unfold isfloat, Py.float_.
  destruct (Py.float_of_str s) as [f|] eqn:Hf.
  - destruct (only_spaces s) eqn:Hs; [| reflexivity].
    by rewrite float_of_str_spaces in Hf.
  - rewrite _str_to_list_spec. by destruct (only_spaces s).
Qed.

Lemma update_from_not_blank out t :
  not_blank t →
  update_from out t =
    Py.Ok (<[ElementTree.tag t := value_of_text (ElementTree.text t)]> out).
Proof.
  intros Ht. rewrite update_from_spec. unfold not_blank in Ht.
  destruct (ElementTree.text t) as [s|]; [| reflexivity].
  by rewrite (Ht s eq_refl).
Qed.

Lemma update_all_not_blank ts :
  ∀ out, Forall not_blank ts → update_all out ts = Py.Ok (updated out ts).
Proof.
  induction ts as [|t ts IH]; intros out Hts; [reflexivity |].
  inversion Hts as [|? ? Ht Hrest]; subst.
  cbn [update_all]. rewrite update_from_not_blank by done.
  cbn [mbind Py.result_bind Py.rbind]. by rewrite IH.
Qed.

(** The loop stops with an IndexError on the first text of spaces. *)
Lemma update_all_blank ts :
  ∀ out t s, t ∈ ts → ElementTree.text t = Some s → only_spaces s = true →
    update_all out ts = Py.Raise Py.IndexError.
Proof.
  induction ts as [|u ts IH]; intros out t s Hin Htext Hs.
  - by apply elem_of_nil in Hin.
  - cbn [update_all]. rewrite update_from_spec.
    apply elem_of_cons in Hin as [<-|Hin].
    + by rewrite Htext, Hs.
    + destruct (ElementTree.text u) as [x|].
      * destruct (only_spaces x); [reflexivity |].
        cbn [mbind Py.result_bind Py.rbind]. by eapply IH.
      * cbn [mbind Py.result_bind Py.rbind]. by eapply IH.
Qed.

Lemma updated_app out l1 l2 : updated out (l1 ++ l2) = updated (updated out l1) l2.
Proof. apply foldl_app. Qed.

Lemma updated_lookup_other ts :
  ∀ out k, (∀ u, u ∈ ts → ElementTree.tag u ≠ k) → updated out ts !! k = out !! k.
Proof.
  induction ts as [|t ts IH]; intros out k Hk; [reflexivity |].
  cbn [updated foldl]. fold (updated (<[ElementTree.tag t :=
    value_of_text (ElementTree.text t)]> out) ts).
  rewrite IH by (intros u Hu; apply Hk; by right).
  apply lookup_insert_ne, Hk. by left.
Qed.

(** A tag holds the value of the last child that carries it. *)
Lemma updated_lookup_last out before t after :
  (∀ u, u ∈ after → ElementTree.tag u ≠ ElementTree.tag t) →
  updated out (before ++ t :: after) !! ElementTree.tag t =
    Some (value_of_text (ElementTree.text t)).
Proof.
  intros Hafter. rewrite updated_app. cbn [updated foldl].
  fold (updated out before).
  fold (updated (<[ElementTree.tag t := value_of_text (ElementTree.text t)]>
                   (updated out before)) after).
  rewrite updated_lookup_other by done. apply lookup_insert_eq.
Qed.

Lemma updated_lookup_is_Some ts :
  ∀ out k, is_Some (updated out ts !! k) ↔
           is_Some (out !! k) ∨ ∃ t, t ∈ ts ∧ ElementTree.tag t = k.
Proof.
  induction ts as [|t ts IH]; intros out k.
  - cbn. split; [by left | intros [H|(t & Ht & _)]; [done |]].
    by apply elem_of_nil in Ht.
  - cbn [updated foldl]. fold (updated (<[ElementTree.tag t :=
      value_of_text (ElementTree.text t)]> out) ts).
    rewrite IH. rewrite lookup_insert_is_Some. split.
    + intros [[Heq|[_ H]]|(u & Hu & Htag)].
      * right. exists t. split; [by left | done].
      * by left.
      * right. exists u. split; [by right | done].
    + intros [H|(u & Hu & Htag)].
      * destruct (decide (ElementTree.tag t = k)); [by left; left |].
        left. by right.
      * apply elem_of_cons in Hu as [->|Hu]; [by left; left |].
        right. by exists u.
Qed.

Lemma float_of_str_true : Py.float_of_str "true" = None.
Proof. vm_compute. reflexivity. Qed.

Lemma float_of_str_false : Py.float_of_str "false" = None.
Proof. vm_compute. reflexivity. Qed.

(** Proves [Forall not_blank] on an explicit list of elements. *)
Ltac not_blank_list :=
  vm_compute ElementTree.findall;
  repeat (apply Forall_cons; split;
          [ let s := fresh in let H := fresh in
            intros s H; inversion H; reflexivity |]);
  apply Forall_nil; exact I.

(** C1 (as amended): when no child text is made of spaces only, the
    extractor returns a dict whose keys are the tags of the children of the
    analysis node, and where the tag of a child that no later child repeats
    holds: the boolean for the texts "true" and "false", [None] for no
    text, the float for a text that [float] parses, and otherwise the
    tokens of the text split on single spaces after its leading spaces are
    removed.  (A tag carried by several children holds the value of the last
    one.) *)
Theorem C1_typed_values (env : environment) (filename node : string)
    (root : ElementTree.element) :
  xml_documents env filename = Some root →
  Forall not_blank (ElementTree.findall root node) →
  ∃ out,
    parse_analyze_set_xml env filename node = Py.Ok out ∧
    (∀ k, is_Some (out !! k) ↔
          ∃ t, t ∈ ElementTree.findall root node ∧ ElementTree.tag t = k) ∧
    ∀ before t after,
      ElementTree.findall root node = (before ++ t :: after)%list →
      (∀ u, u ∈ after → ElementTree.tag u ≠ ElementTree.tag t) →
      (ElementTree.text t = Some "true" →
       out !! ElementTree.tag t = Some (Py.VBool true)) ∧
      (ElementTree.text t = Some "false" →
       out !! ElementTree.tag t = Some (Py.VBool false)) ∧
      (ElementTree.text t = None →
       out !! ElementTree.tag t = Some Py.VNone) ∧
      (∀ s f, ElementTree.text t = Some s → Py.float_of_str s = Some f →
              out !! ElementTree.tag t = Some (Py.VFloat f)) ∧
      (∀ s, ElementTree.text t = Some s → s ≠ "true" → s ≠ "false" →
            Py.float_of_str s = None →
            out !! ElementTree.tag t =
              Some (Py.VList (Py.split_space (lstrip_spaces s)))).
Proof.
  intros Hdoc Hblank. unfold parse_analyze_set_xml, extract. rewrite Hdoc.
  rewrite update_all_not_blank by done.
  exists (updated ∅ (ElementTree.findall root node)).
  split; [reflexivity |]. split.
  - intros k. rewrite updated_lookup_is_Some. rewrite lookup_empty.
    split; [intros [H|H]; [by destruct H | done] | by right].
  - intros before t after -> Hafter.
    rewrite updated_lookup_last by done.
    repeat split.
    + by intros ->.
    + by intros ->.
    + by intros ->.
    + intros s f -> Hf. unfold value_of_text.
      destruct (String.eqb_spec s "true") as [->|_];
        [by rewrite float_of_str_true in Hf |].
      destruct (String.eqb_spec s "false") as [->|_];
        [by rewrite float_of_str_false in Hf |].
      by rewrite Hf.
    + intros s -> Htrue Hfalse Hf. unfold value_of_text.
      destruct (String.eqb_spec s "true") as [->|_]; [done |].
      destruct (String.eqb_spec s "false") as [->|_]; [done |].
      by rewrite Hf.
Qed.

Lemma C1_typed_values_witness :
  ∃ out,
    parse_analyze_set_xml (sample_env so_template) "template.xml"
      "StaticOptimization" = Py.Ok out ∧
    out !! "start_time" = Some Py.VNone.
Proof.
  destruct (C1_typed_values (sample_env so_template) "template.xml"
              "StaticOptimization" so_template eq_refl
              ltac:(not_blank_list))
    as (out & Hout & _ & Hval).
  exists out. split; [exact Hout |].
  refine (proj1 (proj2 (proj2
    (Hval (removelast (ElementTree.findall so_template "StaticOptimization"))
          (ElementTree.Element "start_time" None []) [] eq_refl _))) eq_refl).
  intros u Hu. by apply elem_of_nil in Hu.
Defined.

(** C1 as stated fails on two documents: the first child of
    [repeated_template] has the text "true", yet its tag holds a token
    list (the later child with the same tag replaced it); and on
    [blank_template], whose only child has a text of three spaces (neither
    "true"/"false", nor a number, nor [None]), no token list is produced:
    the extractor raises IndexError. *)
Lemma C1_counterexample :
  (ElementTree.findall repeated_template "JointReaction" =
     [leaf "joint_names" "true"; leaf "joint_names" "a b"] ∧
   parse_analyze_set_xml (sample_env repeated_template) "template.xml"
     "JointReaction" = Py.Ok {["joint_names" := Py.VList ["a"; "b"]]}) ∧
  (ElementTree.findall blank_template "JointReaction" =
     [leaf "forces_file" "   "] ∧
   Py.float_of_str "   " = None ∧
   parse_analyze_set_xml (sample_env blank_template) "template.xml"
     "JointReaction" = Py.Raise Py.IndexError).
Proof. repeat split; vm_compute; reflexivity. Qed.

(** C5: on the text of three spaces, which is neither a boolean nor a
    number and begins with spaces, the tokenizer raises IndexError instead
    of returning a token list; on "   a b c" it returns ["a"; "b"; "c"]. *)
Theorem C5_spaces_only_text :
  isfloat "   " = false ∧ "   " ≠ "true" ∧ "   " ≠ "false" ∧
  _str_to_list "   " = Py.Raise Py.IndexError ∧
  _str_to_list "   a b c" = Py.Ok ["a"; "b"; "c"].
Proof. repeat split; try discriminate; vm_compute; reflexivity. Qed.

(** C9: when the lookup under the analysis node finds no child element in a
    well-formed document, the extractor returns the empty dict. *)
Theorem C9_no_child_empty_dict (env : environment) (filename node : string)
    (root : ElementTree.element) :
  xml_documents env filename = Some root →
  ElementTree.findall root node = [] →
  parse_analyze_set_xml env filename node = Py.Ok ∅.
Proof.
  intros Hdoc Hnone. unfold parse_analyze_set_xml, extract.
  by rewrite Hdoc, Hnone.
Qed.

Lemma C9_no_child_empty_dict_witness :
  parse_analyze_set_xml (sample_env so_template) "template.xml"
    "MuscleAnalysis" = Py.Ok ∅.
Proof.
  apply (C9_no_child_empty_dict (sample_env so_template) "template.xml"
           "MuscleAnalysis" so_template); reflexivity.
Defined.

(** C10: on a text that is empty or made of spaces only, the tokenizer
    raises IndexError; so the extractor raises IndexError on a document
    where a child of the analysis node has such a text, and returns
    neither [None] nor an empty token list for it. *)
Theorem C10_spaces_only_raises (s : string) :
  only_spaces s = true →
  _str_to_list s = Py.Raise Py.IndexError ∧
  ∀ (env : environment) (filename node : string)
    (root t : ElementTree.element),
    xml_documents env filename = Some root →
    t ∈ ElementTree.findall root node →
    ElementTree.text t = Some s →
    parse_analyze_set_xml env filename node = Py.Raise Py.IndexError.
Proof.
  intros Hs. split.
  - by rewrite _str_to_list_spec, Hs.
  - intros env filename node root t Hdoc Hin Htext.
    unfold parse_analyze_set_xml, extract. rewrite Hdoc.
    by eapply update_all_blank.
Qed.

Lemma C10_spaces_only_raises_witness :
  _str_to_list "   " = Py.Raise Py.IndexError ∧
  parse_analyze_set_xml (sample_env blank_template) "template.xml"
    "JointReaction" = Py.Raise Py.IndexError.
Proof.
  destruct (C10_spaces_only_raises "   " eq_refl) as [Htok Hdoc].
  split; [exact Htok |].
  apply (Hdoc (sample_env blank_template) "template.xml" "JointReaction"
           blank_template (leaf "forces_file" "   ")); [reflexivity | | reflexivity].
  vm_compute ElementTree.findall. left.
Defined.

(** ** The output directory *)

(** A loop over distinct names of present files whose body deletes the file
    or leaves it, by a test [del] on its name and size: it ends without
    error, logs nothing, and exactly the files that pass the test are gone. *)
Lemma for_each_unlink (body : string → M unit) (del : string → Z → bool) :
  (∀ name w size, results w !! name = Some size →
     body name w =
       if del name size
       then (Py.Ok tt, World (log w) (delete name (results w)))
       else (Py.Ok tt, w)) →
  ∀ names w,
    NoDup names →
    (∀ n, n ∈ names → is_Some (results w !! n)) →
    ∃ w', for_each names body w = (Py.Ok tt, w') ∧
          log w' = log w ∧
          ∀ k, results w' !! k =
                 if decide (k ∈ names)
                 then size ← results w !! k;
                      if del k size then None else Some size
                 else results w !! k.
Proof.
  intros Hbody names. induction names as [|n names IH]; intros w Hnodup Hin.
  - exists w. split; [reflexivity |]. split; [reflexivity |].
    intros k. destruct (decide (k ∈ [])) as [H|_]; [| reflexivity].
    by apply elem_of_nil in H.
  - apply NoDup_cons in Hnodup as [Hn Hnodup].
    destruct (Hin n) as [size Hsize]; [by left |].
    cbn [for_each]. unfold mbind, M_bind, bind.
    rewrite (Hbody n w size Hsize).
    destruct (del n size) eqn:Hdel.
    + destruct (IH (World (log w) (delete n (results w))) Hnodup)
        as (w' & Hrun & Hlog & Hres).
      { intros m Hm. cbn. rewrite lookup_delete_ne.
        - apply Hin. by right.
        - intros ->. done. }
      exists w'. split; [exact Hrun |]. split; [exact Hlog |].
      intros k. rewrite Hres. cbn [results].
      destruct (decide (k = n)) as [->|Hk].
      * rewrite decide_False by done. rewrite decide_True by by left.
        rewrite lookup_delete_eq, Hsize. cbn. by rewrite Hdel.
      * rewrite lookup_delete_ne by done.
        destruct (decide (k ∈ names)) as [Hkn|Hkn].
        -- rewrite decide_True by by right. reflexivity.
        -- rewrite decide_False; [reflexivity |].
           intros [?|?]%elem_of_cons; done.
    + destruct (IH w Hnodup) as (w' & Hrun & Hlog & Hres).
      { intros m Hm. apply Hin. by right. }
      exists w'. split; [exact Hrun |]. split; [exact Hlog |].
      intros k. rewrite Hres.
      destruct (decide (k = n)) as [->|Hk].
      * rewrite decide_False by done. rewrite decide_True by by left.
        rewrite Hsize. cbn. by rewrite Hdel.
      * destruct (decide (k ∈ names)) as [Hkn|Hkn].
        -- rewrite decide_True by by right. reflexivity.
        -- rewrite decide_False; [reflexivity |].
           intros [?|?]%elem_of_cons; done.
Qed.

(** The same for the loop over [iterdir]. *)
Lemma iterdir_unlink (body : string → M unit) (del : string → Z → bool) :
  (∀ name w size, results w !! name = Some size →
     body name w =
       if del name size
       then (Py.Ok tt, World (log w) (delete name (results w)))
       else (Py.Ok tt, w)) →
  ∀ w, ∃ w',
    (files ← iterdir; for_each files body) w = (Py.Ok tt, w') ∧
    log w' = log w ∧
    ∀ k, results w' !! k =
           size ← results w !! k; if del k size then None else Some size.
Proof.
  intros Hbody w.
  destruct (for_each_unlink body del Hbody (map_to_list (results w)).*1 w)
    as (w' & Hrun & Hlog & Hres).
  - apply NoDup_fst_map_to_list.
  - intros n Hn. apply list_elem_of_fmap in Hn as ([n' size] & -> & Hn).
    apply elem_of_map_to_list in Hn. by exists size.
  - exists w'. split; [exact Hrun |]. split; [exact Hlog |].
    intros k. rewrite Hres.
    destruct (decide (k ∈ (map_to_list (results w)).*1)) as [_|Hk];
      [reflexivity |].
    destruct (results w !! k) as [size|] eqn:Hsize; [| reflexivity].
    destruct Hk. apply list_elem_of_fmap. exists (k, size).
    split; [reflexivity |]. by apply elem_of_map_to_list.
Qed.

Lemma _remove_empty_files_spec (threshold : Z) (w : world) :
  ∃ w', _remove_empty_files threshold w = (Py.Ok tt, w') ∧
        log w' = log w ∧
        ∀ k, results w' !! k =
               size ← results w !! k;
               if size <? threshold then None else Some size.
Proof.
  apply (iterdir_unlink _ (λ _ size, size <? threshold)).
  intros name w0 size Hsize.
  unfold mbind, M_bind, bind, st_size, when, unlink, ret. rewrite Hsize.
  destruct (size <? threshold); [| reflexivity]. by rewrite Hsize.
Qed.

Lemma _subset_output_spec (c : string) (w : world) :
  ∃ w', _subset_output c w = (Py.Ok tt, w') ∧
        log w' = log w ∧
        ∀ k, results w' !! k =
               size ← results w !! k;
               if negb (Py.contains c (Pathlib.stem_of_name k))
               then None else Some size.
Proof.
  apply (iterdir_unlink _
           (λ name _, negb (Py.contains c (Pathlib.stem_of_name name)))).
  intros name w0 size Hsize. unfold when, unlink, ret.
  destruct (negb (Py.contains c (Pathlib.stem_of_name name)));
    [| reflexivity].
  by rewrite Hsize.
Qed.

(** C7: the pruning step ends without error and, for every file of the
    output directory, deletes it exactly when its size is strictly below
    the threshold; it creates no file.  With the default threshold of 1000
    bytes (the one [run_analyze_tool] uses), a file of 500 bytes is deleted
    and a file of 5000 bytes is kept. *)
Theorem C7_remove_empty_files (threshold : Z) (w : world) :
  (∃ w', _remove_empty_files threshold w = (Py.Ok tt, w') ∧
     ∀ name,
       (∀ size, results w !! name = Some size →
          (results w' !! name = None ↔ size < threshold) ∧
          (results w' !! name = Some size ↔ threshold ≤ size)) ∧
       (results w !! name = None → results w' !! name = None)) ∧
  _remove_empty_files 1000
    (World (log w) {["failed.sto" := 500; "walk01.sto" := 5000]}) =
    (Py.Ok tt, World (log w) {["walk01.sto" := 5000]}).
Proof.
  split.
  - destruct (_remove_empty_files_spec threshold w) as (w' & Hrun & _ & Hres).
    exists w'. split; [exact Hrun |]. intros name. split.
    + intros size Hsize. rewrite Hres, Hsize. cbn.
      destruct (Z.ltb_spec size threshold); split; split;
        intros; (done || lia).
    + intros Hnone. by rewrite Hres, Hnone.
  - destruct w as [l r]. cbn [log]. vm_compute. reflexivity.
Qed.

(** C8 (as amended): the subset step ends without error and, for every file
    of the output directory, keeps it exactly when its stem (the name
    without its last suffix) contains the substring, and deletes the
    others; with "walk", "run01_so.sto" is deleted and "walk01_so.sto" is
    kept. *)
Theorem C8_subset_output (c : string) (w : world) :
  (∃ w', _subset_output c w = (Py.Ok tt, w') ∧
     ∀ name,
       (∀ size, results w !! name = Some size →
          (results w' !! name = Some size ↔
             Py.contains c (Pathlib.stem_of_name name) = true) ∧
          (results w' !! name = None ↔
             Py.contains c (Pathlib.stem_of_name name) = false)) ∧
       (results w !! name = None → results w' !! name = None)) ∧
  _subset_output "walk"
    (World (log w) {["run01_so.sto" := 5000; "walk01_so.sto" := 5000]}) =
    (Py.Ok tt, World (log w) {["walk01_so.sto" := 5000]}).
Proof.
  split.
  - destruct (_subset_output_spec c w) as (w' & Hrun & _ & Hres).
    exists w'. split; [exact Hrun |]. intros name. split.
    + intros size Hsize. rewrite Hres, Hsize. cbn.
      destruct (Py.contains c (Pathlib.stem_of_name name)); cbn;
        split; split; intros; done.
    + intros Hnone. by rewrite Hres, Hnone.
  - destruct w as [l r]. cbn [log]. vm_compute. reflexivity.
Qed.

(** C8 as stated fails: the name "walk01_so.sto" contains "sto", but its
    stem "walk01_so" does not, and the file is deleted. *)
Lemma C8_counterexample :
  Py.contains "sto" "walk01_so.sto" = true ∧
  _subset_output "sto" (World [] {["walk01_so.sto" := 5000]}) =
    (Py.Ok tt, World [] ∅).
Proof. split; vm_compute; reflexivity. Qed.

(** ** Rules for [triple] *)

Section Triples.

Context {A B : Type}.
Variables (P : event → Prop) (E : Py.exn → Prop).

Lemma triple_ret (Q : A → Prop) (a : A) : Q a → triple (ret a) P Q E.
Proof.
  intros Ha w. exists []. cbn. rewrite app_nil_r. by repeat split.
Qed.

Lemma triple_raise (Q : A → Prop) (e : Py.exn) : E e → triple (raise e) P Q E.
Proof.
  intros He w. exists []. cbn. rewrite app_nil_r. by repeat split.
Qed.

Lemma triple_lift (Q : A → Prop) (r : Py.result A) :
  match r with Py.Ok a => Q a | Py.Raise e => E e end →
  triple (lift r) P Q E.
Proof.
  intros Hr w. exists []. cbn. rewrite app_nil_r. by repeat split.
Qed.

Lemma triple_bind (Q1 : A → Prop) (Q : B → Prop) (m : M A) (k : A → M B) :
  triple m P Q1 E → (∀ a, Q1 a → triple (k a) P Q E) →
  triple (m ≫= k) P Q E.
Proof.
  intros Hm Hk w. destruct (Hm w) as (evs1 & Hlog1 & HP1 & Hr1).
  unfold mbind, M_bind, bind. destruct (m w) as [[a|e] w1]; cbn in *.
  - destruct (Hk a Hr1 w1) as (evs2 & Hlog2 & HP2 & Hr2).
    exists (evs1 ++ evs2)%list. rewrite Hlog2, Hlog1, app_assoc.
    split; [reflexivity |]. split; [by apply Forall_app | exact Hr2].
  - by exists evs1.
Qed.

Lemma triple_seq (Q : B → Prop) (m : M A) (k : A → M B) :
  triple m P (λ _, True) E → (∀ a, triple (k a) P Q E) →
  triple (m ≫= k) P Q E.
Proof. intros Hm Hk. eapply triple_bind; [exact Hm | intros a _; apply Hk]. Qed.

(** Code that returns and leaves the log as it is. *)
Lemma triple_silent (m : M A) :
  (∀ w, ∃ a w', m w = (Py.Ok a, w') ∧ log w' = log w) →
  triple m P (λ _, True) E.
Proof.
  intros Hm w. destruct (Hm w) as (a & w' & -> & Hlog).
  exists []. cbn. rewrite app_nil_r. by repeat split.
Qed.

End Triples.

Section UnitTriples.

Variables (P : event → Prop) (E : Py.exn → Prop).

Lemma triple_emit (ev : event) : P ev → triple (emit ev) P (λ _, True) E.
Proof.
  intros Hev w. exists [ev]. cbn. split; [reflexivity |].
  split; [by apply Forall_singleton | exact I].
Qed.

Lemma triple_engine (env : environment) (c : Osim.call) :
  P (Engine c) → (engine_raises env c = true → E (engine_error env c)) →
  triple (engine env c) P (λ _, True) E.
Proof.
  intros Hev Hraise. unfold engine. apply triple_seq.
  - by apply triple_emit.
  - intros _. destruct (engine_raises env c).
    + apply triple_raise. by apply Hraise.
    + by apply triple_ret.
Qed.

Lemma triple_for_each {X} (l : list X) (body : X → M unit) :
  (∀ x, triple (body x) P (λ _, True) E) →
  triple (for_each l body) P (λ _, True) E.
Proof.
  intros Hbody. induction l as [|x l IH]; cbn [for_each].
  - by apply triple_ret.
  - apply triple_seq; [apply Hbody | intros _; exact IH].
Qed.

Lemma triple_when (c : bool) (body : M unit) :
  triple body P (λ _, True) E → triple (when c body) P (λ _, True) E.
Proof. intros Hbody. destruct c; [exact Hbody | by apply triple_ret]. Qed.

Lemma triple__remove_empty_files (threshold : Z) :
  triple (_remove_empty_files threshold) P (λ _, True) E.
Proof.
  apply triple_silent. intros w.
  destruct (_remove_empty_files_spec threshold w) as (w' & Hrun & Hlog & _).
  by exists tt, w'.
Qed.

Lemma triple__subset_output (c : string) :
  triple (_subset_output c) P (λ _, True) E.
Proof.
  apply triple_silent. intros w.
  destruct (_subset_output_spec c w) as (w' & Hrun & Hlog & _).
  by exists tt, w'.
Qed.

Lemma triple_write_results (env : environment) (name : string) :
  triple (write_results env name) P (λ _, True) E.
Proof. apply triple_silent. intros w. by eexists tt, _. Qed.

End UnitTriples.

(** ** The first engine call *)

Lemma engine_first (env : environment) (c : Osim.call) (w : world) :
  log (engine env c w).2 = (log w ++ [Engine c])%list.
Proof.
  unfold engine, mbind, M_bind, bind, emit.
  by destruct (engine_raises env c).
Qed.

(** A processed trial first calls the engine for the model. *)
Lemma load_model_first (env : environment) (self : AnalyzeTool) (w : world) :
  ∃ evs, log (load_model env self w).2 =
           (log w ++ Engine (first_engine_call self) :: evs)%list.
Proof.
  unfold load_model, first_engine_call.
  destruct (model_input self) as [path|].
  - unfold mbind, M_bind, bind.
    pose proof (engine_first env (Osim.Model path) w) as H1.
    destruct (engine env (Osim.Model path) w) as [[[]|e] w1]; cbn in *.
    + exists [Engine Osim.Model_initSystem].
      rewrite engine_first, H1. by rewrite <- app_assoc.
    + by exists [].
  - exists []. apply (engine_first env Osim.Model_initSystem w).
Qed.

(** ** What a trial can log and raise *)

Lemma update_all_error ts :
  ∀ out e, update_all out ts = Py.Raise e → e = Py.IndexError.
Proof.
  induction ts as [|t ts IH]; intros out e H; [discriminate H |].
  cbn [update_all] in H. rewrite update_from_spec in H.
  destruct (ElementTree.text t) as [s|].
  - destruct (only_spaces s); cbn in H; [by inversion H | by eapply IH].
  - cbn in H. by eapply IH.
Qed.

Lemma parse_analyze_set_xml_error env filename node e :
  parse_analyze_set_xml env filename node = Py.Raise e →
  e = xml_error env filename ∨ e = Py.IndexError.
Proof.
  unfold parse_analyze_set_xml, extract.
  destruct (xml_documents env filename).
  - intros H. right. by eapply update_all_error.
  - intros H. left. by inversion H.
Qed.

Section TrialTriple.

Variables (env : environment) (P : event → Prop) (E : Py.exn → Prop).
Hypothesis every_event : ∀ ev, P ev.
Hypothesis every_error : ∀ e, E e.

Lemma triple_lift_trial {A} (r : Py.result A) :
  triple (lift r) P (λ _, True) E.
Proof. apply triple_lift. destruct r as [a|e]; [exact I | apply every_error]. Qed.

Lemma triple_getitem (d : gmap string Py.value) (k : string) :
  triple (lift (Py.getitem d k)) P (λ _, True) E.
Proof. apply triple_lift_trial. Qed.

Lemma triple_int_ (v : Py.value) : triple (lift (Py.int_ v)) P (λ _, True) E.
Proof. apply triple_lift_trial. Qed.

Lemma triple_iter_ (v : Py.value) : triple (lift (Py.iter_ v)) P (λ _, True) E.
Proof. apply triple_lift_trial. Qed.

Lemma triple_path_stem (trial : pathlike) :
  triple (lift (path_stem trial)) P (λ _, True) E.
Proof. apply triple_lift_trial. Qed.

Lemma triple_parse (filename node : string) :
  triple (lift (parse_analyze_set_xml env filename node)) P (λ _, True) E.
Proof. apply triple_lift_trial. Qed.

Lemma triple_engine_trial (c : Osim.call) :
  triple (engine env c) P (λ _, True) E.
Proof.
  apply triple_engine; [apply every_event |]. intros _. apply every_error.
Qed.

(** One step on a goal [triple m P (λ _, True) E]. *)
Ltac trial_step :=
  first
    [ apply triple_engine_trial
    | apply triple_getitem
    | apply triple_int_
    | apply triple_iter_
    | apply triple_path_stem
    | apply triple_parse
    | apply triple__remove_empty_files
    | apply triple__subset_output
    | apply triple_write_results
    | apply triple_emit; apply every_event
    | apply triple_ret; exact I
    | apply triple_raise; apply every_error
    | apply triple_when
    | apply triple_for_each; intros ?
    | apply triple_seq; [| intros ?]
    | match goal with
      | |- triple (match ?x with _ => _ end) _ _ _ => destruct x
      | |- triple (if ?b then _ else _) _ _ _ => destruct b
      end ].

Lemma triple_array_of (params : gmap string Py.value) (key : string) :
  triple (array_of env params key) P (λ _, True) E.
Proof. unfold array_of. repeat trial_step. Qed.

Lemma triple_load_model (self : AnalyzeTool) :
  triple (load_model env self) P (λ _, True) E.
Proof. unfold load_model. repeat trial_step. Qed.

Lemma triple_get_times (self : AnalyzeTool) (trial : string) :
  triple (get_times env self trial) P (λ _, True) E.
Proof. unfold get_times. repeat trial_step. Qed.

Lemma triple_prepare_external_forces (self : AnalyzeTool) (trial stem : string) :
  triple (prepare_external_forces env self trial stem) P (λ _, True) E.
Proof. unfold prepare_external_forces. repeat trial_step. Qed.

Lemma triple_build_analysis (self : AnalyzeTool) (current_class : string)
    (params : gmap string Py.value) :
  triple (build_analysis env self current_class params) P (λ _, True) E.
Proof.
  unfold build_analysis.
  repeat first [apply triple_array_of | trial_step].
Qed.

Lemma triple_configure_analysis (self : AnalyzeTool) (current_class : string)
    (params : gmap string Py.value) (first_time last_time : Py.num) :
  triple (configure_analysis env self current_class params first_time last_time)
         P (λ _, True) E.
Proof. unfold configure_analysis. repeat trial_step. Qed.

Lemma triple_analyze (self : AnalyzeTool) (trial stem : string) (sfe : bool)
    (first_time last_time : Py.num) (temp_xml : option string) :
  triple (analyze env self trial stem sfe first_time last_time temp_xml)
         P (λ _, True) E.
Proof. unfold analyze, run. repeat trial_step. Qed.

Lemma triple_clean_up (self : AnalyzeTool) (temp_xml : option string) :
  triple (clean_up env self temp_xml) P (λ _, True) E.
Proof. unfold clean_up. repeat trial_step. Qed.

Lemma triple_process_trial (self : AnalyzeTool) (trial stem : string) :
  triple (process_trial env self trial stem) P (λ _, True) E.
Proof.
  unfold process_trial.
  repeat first
    [ apply triple_load_model | apply triple_get_times
    | apply triple_prepare_external_forces | apply triple_build_analysis
    | apply triple_configure_analysis | apply triple_analyze
    | apply triple_clean_up | trial_step ].
Qed.

(** A processed trial begins with the engine call for the model. *)
Lemma process_trial_first (self : AnalyzeTool) (trial stem : string)
    (w : world) :
  ∃ evs, log (process_trial env self trial stem w).2 =
           (log w ++ Engine (first_engine_call self) :: evs)%list.
Proof.
  destruct (load_model_first env self w) as (evs1 & H1).
  unfold process_trial.
  match goal with
  | |- context [(load_model env self ≫= ?k) w] =>
      assert (Hk : ∀ u, triple (k u) P (λ _, True) E)
  end.
  { intros u.
    repeat first
      [ apply triple_get_times
      | apply triple_prepare_external_forces | apply triple_build_analysis
      | apply triple_configure_analysis | apply triple_analyze
      | apply triple_clean_up | trial_step ]. }
  unfold mbind at 1. unfold M_bind at 1. unfold bind at 1.
  destruct (load_model env self w) as [[u|e] w1]; cbn [snd] in *.
  - destruct (Hk u w1) as (evs2 & H2 & _). exists (evs1 ++ evs2)%list.
    rewrite H2, H1. by rewrite <- app_assoc.
  - by exists evs1.
Qed.

Lemma triple_process (self : AnalyzeTool) (trial : pathlike) :
  triple (process env self trial) P (λ _, True) E.
Proof.
  unfold process. repeat first [apply triple_process_trial | trial_step].
Qed.

Lemma triple_run_analyze_tool (self : AnalyzeTool) (trial : pathlike) :
  triple (run_analyze_tool env self trial) P (λ _, True) E.
Proof.
  unfold run_analyze_tool. apply triple_seq; [apply triple_lift_trial |].
  intros skip. destruct skip; [by apply triple_ret | apply triple_process].
Qed.

End TrialTriple.

(** ** The time window *)

Lemma engine_returns (env : environment) (c : Osim.call) (w : world) :
  engine_raises env c = false →
  engine env c w = (Py.Ok tt, World (log w ++ [Engine c]) (results w)).
Proof.
  intros H. unfold engine, mbind, M_bind, bind, emit. by rewrite H.
Qed.

Lemma is_given_Some (t : option Py.num) (x : Py.num) :
  is_given t = Some x ↔
  t = Some x ∧ Py.num_truthy x = true ∧ Py.num_ne_minus_one x = true.
Proof.
  unfold is_given. split.
  - destruct t as [y|]; [| intros H; by inversion H].
    destruct (Py.num_truthy y) eqn:Ht, (Py.num_ne_minus_one y) eqn:Hn; cbn;
      intros H; inversion H; by subst.
  - intros (-> & Ht & Hn). by rewrite Ht, Hn.
Qed.

Lemma is_given_None (t : option Py.num) :
  is_given t = None ↔
  t = None ∨
  ∃ x, t = Some x ∧ (Py.num_truthy x = false ∨ Py.num_ne_minus_one x = false).
Proof.
  unfold is_given. split.
  - destruct t as [y|]; [| by left].
    destruct (Py.num_truthy y) eqn:Ht, (Py.num_ne_minus_one y) eqn:Hn; cbn;
      intros H; inversion H; right; eauto.
  - intros [->|(x & -> & [Hx|Hx])]; [reflexivity | |]; rewrite Hx;
      [reflexivity | by destruct (Py.num_truthy x)].
Qed.

(** The window when the motion file can be read. *)
Lemma get_times_returns (env : environment) (self : AnalyzeTool)
    (trial : string) (w : world) :
  engine_raises env (Osim.Storage (resolve env trial)) = false →
  engine_raises env Osim.Storage_getFirstTime = false →
  engine_raises env Osim.Storage_getLastTime = false →
  ∃ w',
    get_times env self trial w =
      (Py.Ok (default (Py.Float (motion_first_time env (resolve env trial)))
                      (is_given (start_time self)),
              default (Py.Float (motion_last_time env (resolve env trial)))
                      (is_given (end_time self))),
       w').
Proof.
  intros Hopen Hfirst Hlast. unfold get_times, mbind, M_bind, bind.
  rewrite (engine_returns env _ w Hopen).
  destruct (is_given (start_time self)) as [x|],
           (is_given (end_time self)) as [y|]; cbn -[engine];
    rewrite ?engine_returns by done; cbn -[engine];
    rewrite ?engine_returns by done; cbn; by eexists.
Qed.

(** C2 (as amended): when the motion file can be read, the window of a
    trial is found, and its start (respectively end) is the value of the
    time range when that value is neither zero nor -1, and the first
    (respectively last) time of the motion file when no time range was
    given or when the value is zero or -1.  A list or array time range
    gives its first two elements as start and end; [None] gives none. *)
Theorem C2_effective_times (env : environment) (self : AnalyzeTool)
    (trial : string) (w : world) :
  engine_raises env (Osim.Storage (resolve env trial)) = false →
  engine_raises env Osim.Storage_getFirstTime = false →
  engine_raises env Osim.Storage_getLastTime = false →
  ∃ first_time last_time w',
    get_times env self trial w = (Py.Ok (first_time, last_time), w') ∧
    (∀ x, start_time self = Some x →
          Py.num_truthy x = true → Py.num_ne_minus_one x = true →
          first_time = x) ∧
    (∀ x, end_time self = Some x →
          Py.num_truthy x = true → Py.num_ne_minus_one x = true →
          last_time = x) ∧
    (start_time self = None ∨
     (∃ x, start_time self = Some x ∧
           (Py.num_truthy x = false ∨ Py.num_ne_minus_one x = false)) →
     first_time = Py.Float (motion_first_time env (resolve env trial))) ∧
    (end_time self = None ∨
     (∃ x, end_time self = Some x ∧
           (Py.num_truthy x = false ∨ Py.num_ne_minus_one x = false)) →
     last_time = Py.Float (motion_last_time env (resolve env trial))) ∧
    set_time_range TimeRangeNone = Py.Ok (None, None) ∧
    (∀ a b l, set_time_range (TimeRangeList (a :: b :: l)) =
                Py.Ok (Some a, Some b)) ∧
    (∀ a b l, set_time_range (TimeRangeArray (a :: b :: l)) =
                Py.Ok (Some a, Some b)).
Proof.
  intros Hopen Hfirst Hlast.
  destruct (get_times_returns env self trial w Hopen Hfirst Hlast) as [w' Hrun].
  eexists _, _, w'. split; [exact Hrun |].
  repeat split.
  - intros x Hx Ht Hn.
    by rewrite (proj2 (is_given_Some (start_time self) x)).
  - intros x Hx Ht Hn.
    by rewrite (proj2 (is_given_Some (end_time self) x)).
  - intros H. by rewrite (proj2 (is_given_None (start_time self)) H).
  - intros H. by rewrite (proj2 (is_given_None (end_time self)) H).
Qed.

Lemma C2_effective_times_witness :
  ∃ w',
    get_times (sample_env so_template)
      (sample_self "StaticOptimization" None
         (Some (Py.Float 2)) (Some (Py.Float 5)))
      "wu_walk01.mot" empty_world = (Py.Ok (Py.Float 2, Py.Float 5), w').
Proof.
  destruct (C2_effective_times (sample_env so_template)
              (sample_self "StaticOptimization" None
                 (Some (Py.Float 2)) (Some (Py.Float 5)))
              "wu_walk01.mot" empty_world eq_refl eq_refl eq_refl)
    as (first_time & last_time & w' & Hrun & Hstart & Hend & _).
  exists w'. rewrite Hrun.
  rewrite (Hstart (Py.Float 2) eq_refl eq_refl eq_refl).
  rewrite (Hend (Py.Float 5) eq_refl eq_refl eq_refl).
  reflexivity.
Defined.

(** C2 as stated fails: with the time range [0.0, 5.0] the start value 0.0
    is not -1, yet the start used is the first time of the motion file,
    1.5, because a zero is false in [self.start_time and ...]. *)
Lemma C2_counterexample :
  set_time_range (TimeRangeList [Py.Float 0; Py.Float 5]) =
    Py.Ok (Some (Py.Float 0), Some (Py.Float 5)) ∧
  Py.num_ne_minus_one (Py.Float 0) = true ∧
  (get_times (sample_env so_template)
     (sample_self "StaticOptimization" None
        (Some (Py.Float 0)) (Some (Py.Float 5)))
     "wu_walk01.mot" empty_world).1 = Py.Ok (Py.Float 1.5, Py.Float 5) ∧
  Py.Float 1.5 ≠ Py.Float 0.
Proof.
  repeat split; try (vm_compute; reflexivity).
  intros H. apply (f_equal Py.num_truthy) in H. vm_compute in H.
  discriminate H.
Qed.

(** ** The constructor *)

Lemma bind_lift_Ok {A B} (a : A) (k : A → M B) (w : world) :
  (lift (Py.Ok a) ≫= k) w = k a w.
Proof. reflexivity. Qed.

(** What follows the time-range test. *)
Lemma init_after_time_range (env : environment)
    (pool : (pathlike → M unit) → list pathlike → M unit)
    (cls : string) (a : arguments) (w : world)
    (start end_ : option Py.num) :
  set_time_range (arg_time_range a) = Py.Ok (start, end_) →
  construction_proceeds env pool cls a w start end_.
Proof.
  intros Htr. unfold construction_proceeds, __init__.
  rewrite Htr, bind_lift_Ok.
  destruct (set_mot_files (arg_mot_files a)) as [files|e] eqn:Hfiles.
  - right. rewrite bind_lift_Ok.
    lazymatch goal with
    | |- context [main_loop env pool ?self] => exists self
    end.
    repeat (split; [reflexivity |]).
    unfold mbind, M_bind, bind.
    by destruct (main_loop env pool _ w) as [[[]|e] w'].
  - left. by exists e.
Qed.

(** C3 (as amended): the constructor tests the type of [time_range], not
    its length.  A value that is neither [None], nor a list, nor an array
    raises the RuntimeError at once, with nothing logged or changed (no
    trial is processed).  A list or array of fewer than two elements raises
    an IndexError, also at once.  A list or array of two elements or more
    passes the test and construction proceeds with its first two elements
    as the start and end time; [None] passes it too, with no start and no
    end: the trials are listed and the main loop is run, and an error of
    the constructor is then theirs, not the test's. *)
Theorem C3_time_range_check (env : environment)
    (pool : (pathlike → M unit) → list pathlike → M unit)
    (cls : string) (a : arguments) (w : world) :
  (arg_time_range a ≠ TimeRangeNone →
   (∀ l, arg_time_range a ≠ TimeRangeList l) →
   (∀ l, arg_time_range a ≠ TimeRangeArray l) →
   __init__ env pool cls a w =
     (Py.Raise (Py.RuntimeError time_range_message), w)) ∧
  (∀ l, arg_time_range a = TimeRangeList l ∨
        arg_time_range a = TimeRangeArray l →
        (length l < 2)%nat →
        __init__ env pool cls a w = (Py.Raise Py.IndexError, w)) ∧
  (∀ l x y, arg_time_range a = TimeRangeList l ∨
            arg_time_range a = TimeRangeArray l →
            l !! 0%nat = Some x → l !! 1%nat = Some y →
            set_time_range (arg_time_range a) = Py.Ok (Some x, Some y) ∧
            construction_proceeds env pool cls a w (Some x) (Some y)) ∧
  (arg_time_range a = TimeRangeNone →
   set_time_range (arg_time_range a) = Py.Ok (None, None) ∧
   construction_proceeds env pool cls a w None None).
Proof.
  split; [| split; [| split]].
  - intros Hnone Hlist Harray. unfold __init__.
    destruct (arg_time_range a) as [|l|l|l|x] eqn:Htr;
      [done | by destruct (Hlist l) | by destruct (Harray l) | |];
      reflexivity.
  - intros l Htr Hlen. unfold __init__.
    assert (set_time_range (arg_time_range a) = Py.Raise Py.IndexError) as ->;
      [| reflexivity].
    destruct l as [|x [|y l]]; [| | simpl in Hlen; lia];
      by destruct Htr as [-> | ->].
  - intros l x y Htr Hx Hy.
    assert (set_time_range (arg_time_range a) = Py.Ok (Some x, Some y)) as Hok.
    { unfold set_time_range, seq_index.
      destruct Htr as [-> | ->]; by rewrite Hx, Hy. }
    split; [exact Hok | by apply init_after_time_range].
  - intros Htr.
    assert (set_time_range (arg_time_range a) = Py.Ok (None, None)) as Hok
      by (by rewrite Htr).
    split; [exact Hok | by apply init_after_time_range].
Qed.

(** C3 as stated fails both ways: the tuple (2.0, 5.0) is a two-element
    sequence and raises the RuntimeError; the list [1.0, 2.0, 3.0] is not a
    two-element sequence and is accepted, with start 1.0 and end 2.0. *)
Lemma C3_counterexample :
  __init__ (sample_env so_template) sequential_pool "StaticOptimization"
    (sample_arguments (TimeRangeTuple [Py.Float 2; Py.Float 5])) empty_world =
    (Py.Raise (Py.RuntimeError time_range_message), empty_world) ∧
  ∃ self w',
    __init__ (sample_env so_template) sequential_pool "StaticOptimization"
      (sample_arguments (TimeRangeList [Py.Float 1; Py.Float 2; Py.Float 3]))
      empty_world = (Py.Ok self, w') ∧
    start_time self = Some (Py.Float 1) ∧ end_time self = Some (Py.Float 2).
Proof.
  split; [vm_compute; reflexivity |].
  eexists _, _. split; [vm_compute; reflexivity |]. split; reflexivity.
Qed.

(** ** One trial *)

Lemma skipped_path (self : AnalyzeTool) (p : string) :
  skipped self (AsPath p) =
    Py.Ok (match prefix self with
           | Some (String _ _ as pre) =>
               negb (Py.startswith (Pathlib.stem p) pre)
           | _ => false
           end).
Proof. unfold skipped. by destruct (prefix self) as [[|c pre]|]. Qed.

Lemma run_skipped (env : environment) (self : AnalyzeTool) (p : string)
    (w : world) :
  skipped self (AsPath p) = Py.Ok true →
  run_analyze_tool env self (AsPath p) w = (Py.Ok tt, w).
Proof. intros H. unfold run_analyze_tool. by rewrite H. Qed.

Lemma run_not_skipped (env : environment) (self : AnalyzeTool) (p : string)
    (w : world) :
  skipped self (AsPath p) = Py.Ok false →
  run_analyze_tool env self (AsPath p) w =
    process_trial env self p (Pathlib.stem p)
      (World (log w ++ [Print (String "009" (Pathlib.stem p))]) (results w)).
Proof. intros H. unfold run_analyze_tool. by rewrite H. Qed.

(** The log only grows. *)
Lemma process_trial_grows (env : environment) (self : AnalyzeTool)
    (trial stem : string) (w : world) :
  ∃ evs, log (process_trial env self trial stem w).2 = (log w ++ evs)%list.
Proof.
  destruct (triple_process_trial env (λ _, True) (λ _, True)
              (λ _, I) (λ _, I) self trial stem w) as (evs & Hlog & _).
  by exists evs.
Qed.

(** ** An unknown analysis kind *)

Section Preparation.

Variables (env : environment) (E : Py.exn → Prop).
Hypothesis engine_failure :
  ∀ c, engine_raises env c = true → E (engine_error env c).

Lemma triple_engine_preparation (c : Osim.call) :
  Osim.is_preparation c = true →
  triple (engine env c) preparation (λ _, True) E.
Proof.
  intros Hc. apply triple_engine; [by exists c | apply engine_failure].
Qed.

Ltac preparation_step :=
  first
    [ apply triple_engine_preparation; reflexivity
    | apply triple_ret; exact I
    | apply triple_when
    | apply triple_seq; [| intros ?]
    | match goal with
      | |- triple (match ?x with _ => _ end) _ _ _ => destruct x
      end ].

Lemma triple_load_model_preparation (self : AnalyzeTool) :
  triple (load_model env self) preparation (λ _, True) E.
Proof. unfold load_model. repeat preparation_step. Qed.

Lemma triple_get_times_preparation (self : AnalyzeTool) (trial : string) :
  triple (get_times env self trial) preparation (λ _, True) E.
Proof. unfold get_times. repeat preparation_step. Qed.

Lemma triple_prepare_external_forces_preparation (self : AnalyzeTool)
    (trial stem : string) :
  (Py.str_truthy (xml_forces self) = true → ext_forces_dir self = None →
   E Py.TypeError) →
  triple (prepare_external_forces env self trial stem) preparation
         (λ _, True) E.
Proof.
  intros Hdir. unfold prepare_external_forces.
  destruct (xml_forces self) as [[|c xml]|]; try (by apply triple_ret).
  destruct (ext_forces_dir self) as [dir|].
  - repeat preparation_step.
  - apply triple_seq; [by apply triple_engine_preparation |]. intros _.
    apply triple_seq; [| intros ?; repeat preparation_step].
    apply triple_raise. by apply Hdir.
Qed.

(** With a class that is none of the three analyses, a processed trial
    prepares the run, then raises: it never returns. *)
Lemma triple_process_trial_unknown (self : AnalyzeTool) (trial stem : string) :
  class_name self ≠ "StaticOptimization" →
  class_name self ≠ "MuscleAnalysis" →
  class_name self ≠ "JointReaction" →
  (Py.str_truthy (xml_forces self) = true → ext_forces_dir self = None →
   E Py.TypeError) →
  (∀ e, parse_analyze_set_xml env (xml_input self) (class_name self) =
          Py.Raise e → E e) →
  E (Py.ValueError child_class_message) →
  triple (process_trial env self trial stem) preparation (λ _, False) E.
Proof.
  intros Hso Hma Hjr Hdir Hparse Hvalue. unfold process_trial.
  apply triple_seq; [apply triple_load_model_preparation | intros _].
  apply triple_seq; [apply triple_get_times_preparation | intros [first last]].
  apply triple_seq;
    [by apply triple_prepare_external_forces_preparation | intros temp_xml].
  cbn zeta. unfold get_class_name.
  apply triple_seq.
  { apply triple_lift.
    destruct (parse_analyze_set_xml env (xml_input self) (class_name self))
      as [params|e] eqn:Hp; [exact I | by apply Hparse]. }
  intros params.
  apply (triple_bind _ _ (λ _, False)); [| intros ? []].
  unfold build_analysis.
  rewrite !decide_False by done. by apply triple_raise.
Qed.

End Preparation.

(** C4 (as amended): for a class name that is none of StaticOptimization,
    MuscleAnalysis and JointReaction, running a trial that the prefix does
    not skip always raises.  The error comes after the stem is printed and
    the engine is called: the run logs the print, the engine call for the
    model, and only calls of the preparation (model, motion file, external
    loads) after it; no analysis is built and no tool is run.  When no
    engine call fails, the external-forces directory is given when needed
    and the template parses, the error is the ValueError "AnalyzeTool must
    be called from a child class". *)
Theorem C4_unknown_kind (env : environment) (self : AnalyzeTool) (p : string)
    (w : world) :
  class_name self ≠ "StaticOptimization" →
  class_name self ≠ "MuscleAnalysis" →
  class_name self ≠ "JointReaction" →
  skipped self (AsPath p) = Py.Ok false →
  ∃ e w' evs,
    run_analyze_tool env self (AsPath p) w = (Py.Raise e, w') ∧
    log w' = (log w ++ Print (String "009" (Pathlib.stem p))
                    :: Engine (first_engine_call self) :: evs)%list ∧
    Forall preparation (Engine (first_engine_call self) :: evs) ∧
    ((∀ c, engine_raises env c = false) →
     (Py.str_truthy (xml_forces self) = true → is_Some (ext_forces_dir self)) →
     (∃ params, parse_analyze_set_xml env (xml_input self) (class_name self) =
                  Py.Ok params) →
     e = Py.ValueError child_class_message).
Proof.
  intros Hso Hma Hjr Hskip. rewrite (run_not_skipped env self p w Hskip).
  set (w1 := World (log w ++ [Print (String "009" (Pathlib.stem p))])
                   (results w)).
  destruct (triple_process_trial_unknown env (λ _, True) (λ _ _, I)
              self p (Pathlib.stem p) Hso Hma Hjr (λ _ _, I) (λ _ _, I) I w1)
    as (evs0 & Hlog0 & Hprep & Hr).
  destruct (process_trial_first env (λ _, True) (λ _, True) (λ _, I)
              (λ _, I) self p (Pathlib.stem p) w1) as (evs & Hlog).
  assert (evs0 = Engine (first_engine_call self) :: evs) as ->.
  { rewrite Hlog0 in Hlog. by apply app_inv_head in Hlog. }
  destruct (process_trial env self p (Pathlib.stem p) w1) as [[[]|e] w'] eqn:Hrun;
    cbn [fst snd] in *; [done |].
  exists e, w', evs. split; [reflexivity |].
  split; [by rewrite Hlog0; unfold w1; cbn [log]; rewrite <- app_assoc |].
  split; [exact Hprep |].
  intros Hengine Hdir (params & Hparams).
  destruct (triple_process_trial_unknown env
              (λ e, e = Py.ValueError child_class_message)
              (λ c Hc, ltac:(by rewrite Hengine in Hc))
              self p (Pathlib.stem p) Hso Hma Hjr) with (w := w1)
    as (_ & _ & _ & Hr').
  - intros Hxml Hnone. destruct (Hdir Hxml) as [d Hd]. congruence.
  - intros e' He'. congruence.
  - reflexivity.
  - by rewrite Hrun in Hr'.
Qed.

Lemma C4_unknown_kind_witness :
  ∃ w',
    run_analyze_tool (sample_env so_template)
      (sample_self "AnalyzeTool" None None None) (AsPath "wu_walk01.mot")
      empty_world = (Py.Raise (Py.ValueError child_class_message), w') ∧
    Engine (Osim.Model "/models/wu_scaled.osim") ∈ log w'.
Proof.
  destruct (C4_unknown_kind (sample_env so_template)
              (sample_self "AnalyzeTool" None None None) "wu_walk01.mot"
              empty_world)
    as (e & w' & evs & Hrun & Hlog & _ & Herror); try done.
  exists w'. rewrite Hrun, Hlog. split.
  - rewrite Herror; [reflexivity | reflexivity | discriminate |].
    eexists. vm_compute. reflexivity.
  - right. left.
Defined.

(** C4 as stated fails: with the base class name and no prefix, the
    ValueError is raised after five calls into the engine (the model is
    loaded and initialised, the motion file opened and read); and with a
    prefix that the trial lacks, no error is raised at all. *)
Lemma C4_counterexample :
  (run_analyze_tool (sample_env so_template)
     (sample_self "AnalyzeTool" None None None) (AsPath "wu_walk01.mot")
     empty_world).1 = Py.Raise (Py.ValueError child_class_message) ∧
  log (run_analyze_tool (sample_env so_template)
         (sample_self "AnalyzeTool" None None None) (AsPath "wu_walk01.mot")
         empty_world).2 =
    [Print (String "009" "wu_walk01");
     Engine (Osim.Model "/models/wu_scaled.osim");
     Engine Osim.Model_initSystem;
     Engine (Osim.Storage "/work/wu_walk01.mot");
     Engine Osim.Storage_getFirstTime;
     Engine Osim.Storage_getLastTime] ∧
  run_analyze_tool (sample_env so_template)
    (sample_self "AnalyzeTool" (Some "wu") None None) (AsPath "ta_walk01.mot")
    empty_world = (Py.Ok tt, empty_world).
Proof. repeat split; vm_compute; reflexivity. Qed.

(** ** What a run that returns has called *)

(** One step on a goal [triple m (λ _, True) (λ _, True) (λ _, True)]. *)
Ltac silent_step :=
  first
    [ apply triple_engine; [exact I | done]
    | apply triple_emit; exact I
    | apply triple_ret; exact I
    | apply triple_raise; exact I
    | apply triple_lift; by repeat case_match
    | apply triple__remove_empty_files
    | apply triple__subset_output
    | apply triple_write_results
    | apply triple_when
    | apply triple_for_each; intros ?
    | apply triple_seq; [| intros ?]
    | match goal with
      | |- triple (match ?x with _ => _ end) _ _ _ => destruct x
      | |- triple (if ?b then _ else _) _ _ _ => destruct b
      end ].

Lemma visits_bind {A B} (l1 l2 : list event) (m : M A) (k : A → M B) :
  visits l1 m → (∀ a, visits l2 (k a)) → visits (l1 ++ l2) (m ≫= k).
Proof.
  intros Hm Hk w. specialize (Hm w). unfold mbind, M_bind, bind.
  destruct (m w) as [[a|e] w1]; cbn [fst snd] in *; [| exact I].
  destruct Hm as (evs1 & Hlog1 & Hsub1). specialize (Hk a w1).
  destruct (k a w1) as [[b|e] w2]; cbn [fst snd] in *; [| exact I].
  destruct Hk as (evs2 & Hlog2 & Hsub2). exists (evs1 ++ evs2)%list.
  split; [by rewrite Hlog2, Hlog1, app_assoc | by apply sublist_app].
Qed.

Lemma visits_nil {A} (m : M A) :
  triple m (λ _, True) (λ _, True) (λ _, True) → visits [] m.
Proof.
  intros Hm w. destruct (Hm w) as (evs & Hlog & _).
  destruct (m w).1; [| exact I]. exists evs.
  split; [exact Hlog | apply sublist_nil_l].
Qed.

Lemma visits_skip {A B} (l : list event) (m : M A) (k : A → M B) :
  triple m (λ _, True) (λ _, True) (λ _, True) →
  (∀ a, visits l (k a)) → visits l (m ≫= k).
Proof.
  intros Hm Hk. apply (visits_bind [] l); [by apply visits_nil | exact Hk].
Qed.

Lemma visits_then {A B} (l : list event) (m : M A) (k : A → M B) :
  visits l m →
  (∀ a, triple (k a) (λ _, True) (λ _, True) (λ _, True)) →
  visits l (m ≫= k).
Proof.
  intros Hm Hk. rewrite <- (app_nil_r l). apply visits_bind; [exact Hm |].
  intros a. by apply visits_nil.
Qed.

Lemma visits_engine (env : environment) (c : Osim.call) :
  visits [Engine c] (engine env c).
Proof.
  intros w. unfold engine, mbind, M_bind, bind, emit.
  destruct (engine_raises env c); cbn; [exact I |]. by exists [Engine c].
Qed.

(** Skips what comes before a call [c] in a sequence, up to the call. *)
Ltac visits_step :=
  first
    [ apply visits_then; [apply visits_engine | intros ?; repeat silent_step]
    | apply visits_skip; [repeat silent_step | intros ?] ].

Lemma visits_configure_analysis (env : environment) (self : AnalyzeTool)
    (current_class : string) (params : gmap string Py.value)
    (first last : Py.num) :
  visits [Engine Osim.Model_addAnalysis]
         (configure_analysis env self current_class params first last).
Proof. unfold configure_analysis. repeat visits_step. Qed.

Lemma visits_analyze (env : environment) (self : AnalyzeTool)
    (trial stem : string) (sfe : bool) (first last : Py.num)
    (temp_xml : option string) :
  visits [Engine Osim.AnalyzeTool_run]
         (analyze env self trial stem sfe first last temp_xml).
Proof. unfold analyze, run. repeat visits_step. Qed.

Lemma visits_clean_up (env : environment) (self : AnalyzeTool)
    (temp_xml : option string) :
  visits [Engine Osim.Model_removeAnalysis] (clean_up env self temp_xml).
Proof. unfold clean_up. repeat visits_step. Qed.

Lemma visits_process_trial (env : environment) (self : AnalyzeTool)
    (trial stem : string) :
  visits [Engine Osim.Model_addAnalysis; Engine Osim.AnalyzeTool_run;
          Engine Osim.Model_removeAnalysis]
         (process_trial env self trial stem).
Proof.
  unfold process_trial.
  apply visits_skip; [unfold load_model; repeat silent_step | intros _].
  apply visits_skip; [unfold get_times; repeat silent_step | intros [f l]].
  apply visits_skip;
    [unfold prepare_external_forces; repeat silent_step | intros temp_xml].
  cbn zeta.
  apply visits_skip; [silent_step | intros params].
  apply visits_skip;
    [unfold build_analysis, array_of; repeat silent_step | intros sfe].
  apply (visits_bind [Engine Osim.Model_addAnalysis]
           [Engine Osim.AnalyzeTool_run; Engine Osim.Model_removeAnalysis]);
    [apply visits_configure_analysis | intros _].
  apply (visits_bind [Engine Osim.AnalyzeTool_run]
           [Engine Osim.Model_removeAnalysis]);
    [apply visits_analyze | intros _; apply visits_clean_up].
Qed.

Lemma visits_here {B} (env : environment) (c : Osim.call) (l : list event)
    (k : unit → M B) :
  (∀ a, visits l (k a)) → visits (Engine c :: l) (engine env c ≫= k).
Proof. intros Hk. apply (visits_bind [Engine c] l); [apply visits_engine | exact Hk]. Qed.

(** Follows a sequence of calls: takes the next call of the list where it
    is made, and skips what comes before it. *)
Ltac visits_calls_step :=
  first
    [ apply visits_then; [apply visits_engine | intros ?; repeat silent_step]
    | apply visits_here; intros ?
    | apply visits_skip; [repeat silent_step | intros ?] ].

Lemma visits_load_model (env : environment) (self : AnalyzeTool) :
  visits [Engine Osim.Model_initSystem] (load_model env self).
Proof.
  unfold load_model. apply visits_skip; [repeat silent_step | intros _].
  apply visits_engine.
Qed.

Lemma visits_get_times (env : environment) (self : AnalyzeTool)
    (trial : string) :
  visits [Engine (Osim.Storage (resolve env trial))] (get_times env self trial).
Proof. unfold get_times. cbn zeta. visits_calls_step. Qed.

(** The window is computed as [window_start] and [window_end]. *)
Lemma triple_get_times_window (env : environment) (self : AnalyzeTool)
    (trial : string) (P : event → Prop) :
  (∀ c, Osim.is_preparation c = true → P (Engine c)) →
  triple (get_times env self trial) P
         (λ times, times = (window_start env self trial,
                            window_end env self trial))
         (λ _, True).
Proof.
  intros HP. unfold get_times, window_start, window_end.
  apply triple_seq; [by apply triple_engine; [apply HP |] | intros _].
  apply (triple_bind _ _
           (λ t, t = default (Py.Float (motion_first_time env (resolve env trial)))
                             (is_given (start_time self)))).
  { destruct (is_given (start_time self)) as [x|]; [by apply triple_ret |].
    apply triple_seq; [by apply triple_engine; [apply HP |] | intros _].
    by apply triple_ret. }
  intros first_time ->.
  apply (triple_bind _ _
           (λ t, t = default (Py.Float (motion_last_time env (resolve env trial)))
                             (is_given (end_time self)))).
  { destruct (is_given (end_time self)) as [x|]; [by apply triple_ret |].
    apply triple_seq; [by apply triple_engine; [apply HP |] | intros _].
    by apply triple_ret. }
  intros last_time ->. by apply triple_ret.
Qed.

Lemma visits_raise {A} (l : list event) (e : Py.exn) :
  visits l (raise e : M A).
Proof. intros w. exact I. Qed.

Lemma visits_bind_post {A B} (Q : A → Prop) (l1 l2 : list event) (m : M A)
    (k : A → M B) :
  triple m (λ _, True) Q (λ _, True) →
  visits l1 m → (∀ a, Q a → visits l2 (k a)) → visits (l1 ++ l2) (m ≫= k).
Proof.
  intros Hq Hm Hk w. destruct (Hq w) as (_ & _ & _ & Hr).
  specialize (Hm w). unfold mbind, M_bind, bind.
  destruct (m w) as [[a|e] w1]; cbn [fst snd] in *; [| exact I].
  destruct Hm as (evs1 & Hlog1 & Hsub1). specialize (Hk a Hr w1).
  destruct (k a w1) as [[b|e] w2]; cbn [fst snd] in *; [| exact I].
  destruct Hk as (evs2 & Hlog2 & Hsub2). exists (evs1 ++ evs2)%list.
  split; [by rewrite Hlog2, Hlog1, app_assoc | by apply sublist_app].
Qed.

Lemma visits_build_analysis (env : environment) (self : AnalyzeTool)
    (current_class : string) (params : gmap string Py.value) :
  visits [Engine (analysis_constructor current_class)]
         (build_analysis env self current_class params).
Proof.
  unfold build_analysis, analysis_constructor, array_of.
  repeat case_decide; try apply visits_raise; visits_calls_step.
Qed.

Lemma visits_configure_analysis_calls (env : environment) (self : AnalyzeTool)
    (current_class : string) (params : gmap string Py.value)
    (first last : Py.num) :
  visits [Engine (Osim.Analysis_setStartTime first);
          Engine (Osim.Analysis_setEndTime last);
          Engine Osim.Model_addAnalysis]
         (configure_analysis env self current_class params first last).
Proof. unfold configure_analysis. repeat visits_calls_step. Qed.

Lemma visits_analyze_calls (env : environment) (self : AnalyzeTool)
    (trial stem : string) (sfe : bool) (first last : Py.num)
    (temp_xml : option string) :
  visits [Engine Osim.AnalyzeTool;
          Engine (Osim.AnalyzeTool_setName stem);
          Engine (Osim.AnalyzeTool_setInitialTime first);
          Engine (Osim.AnalyzeTool_setFinalTime last);
          Engine (Osim.AnalyzeTool_setCoordinatesFileName (resolve env trial));
          Engine (Osim.AnalyzeTool_setResultsDir (sto_output self));
          Engine Osim.AnalyzeTool_run]
         (analyze env self trial stem sfe first last temp_xml).
Proof. unfold analyze, run. repeat visits_calls_step. Qed.

Lemma visits_process_trial_calls (env : environment) (self : AnalyzeTool)
    (trial stem : string) :
  visits [Engine Osim.Model_initSystem;
          Engine (Osim.Storage (resolve env trial));
          Engine (analysis_constructor (class_name self));
          Engine (Osim.Analysis_setStartTime (window_start env self trial));
          Engine (Osim.Analysis_setEndTime (window_end env self trial));
          Engine Osim.Model_addAnalysis;
          Engine Osim.AnalyzeTool;
          Engine (Osim.AnalyzeTool_setName stem);
          Engine (Osim.AnalyzeTool_setInitialTime (window_start env self trial));
          Engine (Osim.AnalyzeTool_setFinalTime (window_end env self trial));
          Engine (Osim.AnalyzeTool_setCoordinatesFileName (resolve env trial));
          Engine (Osim.AnalyzeTool_setResultsDir (sto_output self));
          Engine Osim.AnalyzeTool_run;
          Engine Osim.Model_removeAnalysis]
         (process_trial env self trial stem).
Proof.
  unfold process_trial.
  apply (visits_bind [_] (_ :: _)); [apply visits_load_model | intros _].
  apply (visits_bind_post
           (λ times, times = (window_start env self trial,
                              window_end env self trial))
           [_] (_ :: _));
    [by apply triple_get_times_window | apply visits_get_times |].
  intros [f l] Htimes. inversion Htimes; subst f l.
  apply visits_skip;
    [unfold prepare_external_forces; repeat silent_step | intros temp_xml].
  cbn zeta. unfold get_class_name.
  apply visits_skip; [silent_step | intros params].
  apply (visits_bind [_] (_ :: _)); [apply visits_build_analysis | intros sfe].
  apply (visits_bind [_; _; _] (_ :: _));
    [apply visits_configure_analysis_calls | intros _].
  apply (visits_bind [_; _; _; _; _; _; _] [_]);
    [apply visits_analyze_calls | intros _; apply visits_clean_up].
Qed.

(** ** The prefix filter *)

Lemma startswith_empty (s : string) : Py.startswith s "" = true.
Proof. unfold Py.startswith. by destruct s. Qed.

Lemma processed_iff_not_skipped (env : environment) (self : AnalyzeTool)
    (p : string) (w : world) :
  processed env self p w ↔ skipped self (AsPath p) = Py.Ok false.
Proof.
  unfold processed. rewrite skipped_path.
  destruct (match prefix self with
            | Some (String _ _ as pre) =>
                negb (Py.startswith (Pathlib.stem p) pre)
            | _ => false
            end) eqn:Hskip.
  - rewrite run_skipped by (by rewrite skipped_path, Hskip). cbn [snd].
    split; [| intros H; by inversion H].
    intros (evs & Hlog & _). rewrite <- (app_nil_r (log w)) in Hlog at 1.
    by apply app_inv_head in Hlog.
  - rewrite run_not_skipped by (by rewrite skipped_path, Hskip).
    split; [done | intros _].
    set (w1 := World (log w ++ [Print (String "009" (Pathlib.stem p))])
                     (results w)).
    destruct (process_trial_first env (λ _, True) (λ _, True) (λ _, I)
                (λ _, I) self p (Pathlib.stem p) w1) as (evs & Hlog).
    exists evs. split.
    + rewrite Hlog. unfold w1. cbn [log]. by rewrite <- app_assoc.
    + intros Hok.
      pose proof (visits_process_trial_calls env self p (Pathlib.stem p) w1)
        as Hcalls.
      rewrite Hok in Hcalls. destruct Hcalls as (evs' & Hlog' & Hsub).
      rewrite Hlog in Hlog'. apply app_inv_head in Hlog'. by rewrite Hlog'.
Qed.

(** C6: with a prefix configured, a trial is processed if and only if its
    stem starts with the prefix, and a trial that is not processed is
    skipped without any effect or error; with no prefix, every trial is
    processed.  With the prefix "wu", "wu_walk01.mot" is processed and
    "ta_walk01.mot" is skipped.  Processed means what [processed] says: the
    stem is printed, the engine is called for the model, and a run that
    returns has opened the trial's motion file, attached the analysis,
    built the analyze tool for the trial, run it and removed the
    analysis. *)
Theorem C6_prefix_filter (env : environment) (self : AnalyzeTool) (w : world) :
  (∀ p pre, prefix self = Some pre →
     (processed env self p w ↔ Py.startswith (Pathlib.stem p) pre = true) ∧
     (Py.startswith (Pathlib.stem p) pre = false →
      run_analyze_tool env self (AsPath p) w = (Py.Ok tt, w))) ∧
  (∀ p, prefix self = None → processed env self p w) ∧
  (prefix self = Some "wu" →
   processed env self "wu_walk01.mot" w ∧
   ¬ processed env self "ta_walk01.mot" w ∧
   run_analyze_tool env self (AsPath "ta_walk01.mot") w = (Py.Ok tt, w)).
Proof.
  assert (Hpre : ∀ p pre, prefix self = Some pre →
     (processed env self p w ↔ Py.startswith (Pathlib.stem p) pre = true) ∧
     (Py.startswith (Pathlib.stem p) pre = false →
      run_analyze_tool env self (AsPath p) w = (Py.Ok tt, w))).
  { intros p pre Hprefix. split.
    - rewrite processed_iff_not_skipped, skipped_path, Hprefix.
      destruct pre as [|c pre].
      + rewrite startswith_empty. by split.
      + destruct (Py.startswith (Pathlib.stem p) (String c pre)); cbn;
          split; intros H; (done || by inversion H).
    - intros Hstart. apply run_skipped. rewrite skipped_path, Hprefix.
      destruct pre as [|c pre]; [by rewrite startswith_empty in Hstart |].
      by rewrite Hstart. }
  split; [exact Hpre |]. split.
  - intros p Hprefix. apply processed_iff_not_skipped.
    by rewrite skipped_path, Hprefix.
  - intros Hwu.
    destruct (Hpre "wu_walk01.mot" "wu" Hwu) as [Hyes _].
    destruct (Hpre "ta_walk01.mot" "wu" Hwu) as [Hno Hskip].
    split; [by apply Hyes |]. split; [| by apply Hskip].
    intros H. apply Hno in H. vm_compute in H. discriminate H.
Qed.

(** * Further properties *)

(** ** The tokenizer on a text that has a character other than a space *)

Lemma split_space_not_nil (s : string) : Py.split_space s ≠ [].
Proof.
  destruct s as [|c r]; cbn; [done |].
  destruct (Ascii.eqb c " "); [done |]. by destruct (Py.split_space r).
Qed.

Lemma join_space_cons (t u : string) (ts : list string) :
  join_space (t :: u :: ts) = t ++ String " " (join_space (u :: ts)).
Proof. reflexivity. Qed.

Lemma join_split_space (s : string) : join_space (Py.split_space s) = s.
Proof.
  induction s as [|c r IH]; [reflexivity |]. cbn [Py.split_space].
  pose proof (split_space_not_nil r) as Hne.
  destruct (Ascii.eqb_spec c " ") as [->|Hc].
  - destruct (Py.split_space r) as [|t ts]; [done |].
    by rewrite join_space_cons, IH, append_nil.
  - destruct (Py.split_space r) as [|t [|u ts]]; [done | |].
    + cbn [join_space] in *. by rewrite IH.
    + rewrite join_space_cons in *. by rewrite append_cons, IH.
Qed.

Lemma split_space_no_space (s : string) :
  Forall (λ t, no_space t = true) (Py.split_space s).
Proof.
  induction s as [|c r IH]; cbn [Py.split_space].
  - by apply Forall_singleton.
  - destruct (Ascii.eqb c " ") eqn:Hc.
    + by apply Forall_cons.
    + destruct (Py.split_space r) as [|t ts].
      * apply Forall_singleton. cbn. by rewrite Hc.
      * apply Forall_cons in IH as [Ht Hts]. apply Forall_cons.
        split; [| exact Hts]. cbn. by rewrite Hc.
Qed.

Lemma split_space_length (s : string) :
  length (Py.split_space s) = S (count_spaces s).
Proof.
  induction s as [|c r IH]; [reflexivity |].
  cbn [Py.split_space count_spaces].
  destruct (Ascii.eqb c " "); cbn [length]; [by rewrite IH |].
  pose proof (split_space_not_nil r) as Hne.
  destruct (Py.split_space r) as [|t ts]; [done | exact IH].
Qed.

(** X1: on a text with a character other than a space, the tokenizer
    returns the tokens of the text without its leading spaces, and the first
    token is not empty: it begins with the first such character. *)
Theorem X1_tokenizer_trims (s : string) :
  only_spaces s = false →
  ∃ c t ts,
    _str_to_list s = Py.Ok (String c t :: ts) ∧
    c ≠ " "%char ∧
    String c t :: ts = Py.split_space (lstrip_spaces s).
Proof.
  intros Hs. destruct (split_space_head s Hs) as (c & t & ts & Hsplit & Hc).
  exists c, t, ts. rewrite _str_to_list_spec, Hs. by rewrite Hsplit.
Qed.

Lemma X1_tokenizer_trims_witness :
  ∃ c t ts, _str_to_list "  joint1 joint2" = Py.Ok (String c t :: ts).
Proof.
  destruct (X1_tokenizer_trims "  joint1 joint2" eq_refl)
    as (c & t & ts & H & _).
  by exists c, t, ts.
Defined.

(** X2: on such a text, joining the tokens with single spaces gives back
    the text without its leading spaces; no token holds a space; and there
    is one token more than there are spaces after the leading ones (so two
    spaces in a row give an empty token). *)
Theorem X2_tokenizer_round_trip (s : string) :
  only_spaces s = false →
  ∃ li,
    _str_to_list s = Py.Ok li ∧
    join_space li = lstrip_spaces s ∧
    Forall (λ t, no_space t = true) li ∧
    length li = S (count_spaces (lstrip_spaces s)).
Proof.
  intros Hs. exists (Py.split_space (lstrip_spaces s)).
  rewrite _str_to_list_spec, Hs. split; [reflexivity |].
  split; [apply join_split_space |].
  split; [apply split_space_no_space | apply split_space_length].
Qed.

Lemma X2_tokenizer_round_trip_witness :
  ∃ li, _str_to_list " a  b" = Py.Ok li ∧ length li = 3%nat.
Proof.
  destruct (X2_tokenizer_round_trip " a  b" eq_refl) as (li & H & _ & _ & Hn).
  exists li. split; [exact H | exact Hn].
Defined.

(** ** The extractor: when it fails, what it stores *)

Lemma blank_or_not (ts : list ElementTree.element) :
  Forall not_blank ts ∨
  ∃ t s, t ∈ ts ∧ ElementTree.text t = Some s ∧ only_spaces s = true.
Proof.
  induction ts as [|u ts IH]; [left; constructor |].
  destruct (ElementTree.text u) as [x|] eqn:Hu.
  - destruct (only_spaces x) eqn:Hx.
    + right. exists u, x. split; [by left | done].
    + destruct IH as [IH|(t & s & Ht & Hs)].
      * left. constructor; [| exact IH]. intros s Hs. congruence.
      * right. exists t, s. split; [by right | done].
  - destruct IH as [IH|(t & s & Ht & Hs)].
    + left. constructor; [| exact IH]. intros s Hs. congruence.
    + right. exists t, s. split; [by right | done].
Qed.

(** X3: the extractor adds one failure of its own to those of
    [ElementTree.parse].  When the file gives no document, the exception of
    [ElementTree.parse] comes out unchanged.  When it gives one, the
    extractor raises exactly when some child of the analysis node has a
    text made of spaces only, and then it is an IndexError; otherwise it
    returns a dict. *)
Theorem X3_extractor_failures (env : environment) (filename node : string) :
  (xml_documents env filename = None →
   parse_analyze_set_xml env filename node =
     Py.Raise (xml_error env filename)) ∧
  (∀ root, xml_documents env filename = Some root →
     (parse_analyze_set_xml env filename node = Py.Raise Py.IndexError ↔
      ∃ t s, t ∈ ElementTree.findall root node ∧
             ElementTree.text t = Some s ∧ only_spaces s = true) ∧
     (∀ e, parse_analyze_set_xml env filename node = Py.Raise e →
           e = Py.IndexError) ∧
     (Forall not_blank (ElementTree.findall root node) →
      ∃ out, parse_analyze_set_xml env filename node = Py.Ok out)).
Proof.
  unfold parse_analyze_set_xml, extract. split.
  - by intros ->.
  - intros root ->. split; [| split].
    + split.
      * intros H.
        destruct (blank_or_not (ElementTree.findall root node))
          as [Hok|(t & s & Ht & Hs & Hblank)].
        -- by rewrite update_all_not_blank in H.
        -- by exists t, s.
      * intros (t & s & Ht & Hs & Hblank). by eapply update_all_blank.
    + intros e H. by eapply update_all_error.
    + intros Hok. rewrite update_all_not_blank by done. by eexists.
Qed.

Lemma updated_lookup_Some ts :
  ∀ out k v, updated out ts !! k = Some v →
    out !! k = Some v ∨
    ∃ t, t ∈ ts ∧ ElementTree.tag t = k ∧ v = value_of_text (ElementTree.text t).
Proof.
  induction ts as [|t ts IH]; intros out k v H; [by left |].
  cbn [updated foldl] in H.
  fold (updated (<[ElementTree.tag t :=
    value_of_text (ElementTree.text t)]> out) ts) in H.
  apply IH in H as [H|(u & Hu & Htag & Hv)].
  - apply lookup_insert_Some in H as [[Htag Hv]|[_ H]].
    + right. exists t. split; [by left | done].
    + by left.
  - right. exists u. split; [by right | done].
Qed.

(** X4: every token list the extractor stores is usable as it is: it is
    not empty (so it is true in a condition), its first token is not empty,
    and no token holds a space. *)
Theorem X4_stored_token_lists (env : environment) (filename node key : string)
    (out : gmap string Py.value) (tokens : list string) :
  parse_analyze_set_xml env filename node = Py.Ok out →
  out !! key = Some (Py.VList tokens) →
  Py.truthy (Py.VList tokens) = true ∧
  (∃ c t ts, tokens = String c t :: ts ∧ c ≠ " "%char) ∧
  Forall (λ t, no_space t = true) tokens.
Proof.
  unfold parse_analyze_set_xml, extract.
  destruct (xml_documents env filename) as [root|]; [| done].
  intros Hrun Hkey.
  destruct (blank_or_not (ElementTree.findall root node))
    as [Hok|(t & s & Ht & Hs & Hblank)];
    [| by rewrite (update_all_blank _ _ _ _ Ht Hs Hblank) in Hrun].
  rewrite update_all_not_blank in Hrun by done. inversion Hrun; subst out.
  apply updated_lookup_Some in Hkey as [Hkey|(t & Ht & _ & Hv)];
    [by rewrite lookup_empty in Hkey |].
  assert (Hnb : not_blank t) by (by eapply Forall_forall in Hok).
  unfold value_of_text in Hv. destruct (ElementTree.text t) as [s|] eqn:Hs;
    [| done].
  destruct (String.eqb s "true"); [done |].
  destruct (String.eqb s "false"); [done |].
  destruct (Py.float_of_str s); [done |]. inversion Hv; subst tokens.
  destruct (split_space_head s (Hnb s Hs)) as (c & u & us & Hsplit & Hc).
  split; [by rewrite Hsplit |]. split; [by exists c, u, us |].
  apply split_space_no_space.
Qed.

Lemma X4_stored_token_lists_witness :
  Py.truthy (Py.VList ["a"; "b"]) = true.
Proof.
  apply (X4_stored_token_lists (sample_env repeated_template) "template.xml"
           "JointReaction" "joint_names"
           {["joint_names" := Py.VList ["a"; "b"]]} ["a"; "b"]).
  - vm_compute. reflexivity.
  - vm_compute. reflexivity.
Defined.

Lemma updated_lookup_NoDup ts :
  ∀ out t, NoDup (ElementTree.tag <$> ts) → t ∈ ts →
    updated out ts !! ElementTree.tag t =
      Some (value_of_text (ElementTree.text t)).
Proof.
  intros out t Hnodup Ht.
  apply list_elem_of_split in Ht as (before & after & ->).
  apply updated_lookup_last. intros u Hu Htag.
  rewrite fmap_app, fmap_cons in Hnodup.
  apply NoDup_app in Hnodup as (_ & _ & Hnodup).
  apply NoDup_cons in Hnodup as [Hnot _].
  apply Hnot. rewrite <- Htag. by apply list_elem_of_fmap_2.
Qed.

Lemma updated_lookup_None ts :
  ∀ out k, out !! k = None → (∀ t, t ∈ ts → ElementTree.tag t ≠ k) →
    updated out ts !! k = None.
Proof. intros out k Hk Hts. by rewrite updated_lookup_other. Qed.

(** X5: when the children of the analysis node carry distinct tags, their
    order does not matter: two documents whose children under the node are
    the same up to order give the same result. *)
Theorem X5_order_of_children (root1 root2 : ElementTree.element)
    (node : string) :
  ElementTree.findall root1 node ≡ₚ ElementTree.findall root2 node →
  NoDup (ElementTree.tag <$> ElementTree.findall root1 node) →
  extract root1 node = extract root2 node.
Proof.
  unfold extract. intros Hperm Hnodup.
  assert (Hnodup2 : NoDup (ElementTree.tag <$> ElementTree.findall root2 node)).
  { by rewrite <- Hperm. }
  destruct (blank_or_not (ElementTree.findall root1 node))
    as [Hok|(t & s & Ht & Hs & Hblank)].
  - assert (Hok2 : Forall not_blank (ElementTree.findall root2 node)).
    { by rewrite <- Hperm. }
    rewrite !update_all_not_blank by done. f_equal.
    apply map_eq. intros k.
    destruct (decide (k ∈ ElementTree.tag <$> ElementTree.findall root1 node))
      as [Hk|Hno].
    + apply list_elem_of_fmap in Hk as (t & -> & Ht).
      rewrite !updated_lookup_NoDup; try done. by rewrite <- Hperm.
    + rewrite !updated_lookup_None; try done.
      * intros t Ht Htag. apply Hno. rewrite <- Htag.
        apply list_elem_of_fmap_2. by rewrite Hperm.
      * intros t Ht Htag. apply Hno. rewrite <- Htag.
        by apply list_elem_of_fmap_2.
  - rewrite (update_all_blank _ _ _ _ Ht Hs Hblank).
    rewrite Hperm in Ht. by rewrite (update_all_blank _ _ _ _ Ht Hs Hblank).
Qed.

Lemma X5_order_of_children_witness :
  extract (template "JointReaction" [leaf "a" "1"; leaf "b" "x y"])
          "JointReaction" =
  extract (template "JointReaction" [leaf "b" "x y"; leaf "a" "1"])
          "JointReaction".
Proof.
  apply X5_order_of_children.
  - vm_compute ElementTree.findall. apply Permutation_swap.
  - apply (bool_decide_unpack _). vm_compute. exact I.
Defined.

(** ** The clean-up steps together *)

Lemma world_eq (w1 w2 : world) :
  log w1 = log w2 → (∀ k, results w1 !! k = results w2 !! k) → w1 = w2.
Proof.
  destruct w1 as [l1 r1], w2 as [l2 r2]; cbn. intros -> H.
  f_equal. by apply map_eq.
Qed.

Lemma contains_empty (s : string) : Py.contains "" s = true.
Proof. by destruct s. Qed.

(** X6: each clean-up step does all its work at once: run a second time on
    the directory it has left, it deletes nothing more and changes
    nothing. *)
Theorem X6_pruning_idempotent (threshold : Z) (c : string) (w : world) :
  (_remove_empty_files threshold ;; _remove_empty_files threshold) w =
    _remove_empty_files threshold w ∧
  (_subset_output c ;; _subset_output c) w = _subset_output c w.
Proof.
  split.
  - destruct (_remove_empty_files_spec threshold w) as (w1 & H1 & Hl1 & Hr1).
    destruct (_remove_empty_files_spec threshold w1) as (w2 & H2 & Hl2 & Hr2).
    unfold mbind, M_bind, bind. rewrite H1, H2. f_equal.
    apply world_eq; [done |]. intros k. rewrite Hr2, Hr1.
    destruct (results w !! k) as [size|]; cbn [mbind option_bind]; [| done].
    destruct (size <? threshold) eqn:Hs; cbn [mbind option_bind];
      [done | by rewrite Hs].
  - destruct (_subset_output_spec c w) as (w1 & H1 & Hl1 & Hr1).
    destruct (_subset_output_spec c w1) as (w2 & H2 & Hl2 & Hr2).
    unfold mbind, M_bind, bind. rewrite H1, H2. f_equal.
    apply world_eq; [done |]. intros k. rewrite Hr2, Hr1.
    destruct (results w !! k) as [size|]; cbn [mbind option_bind]; [| done].
    by destruct (Py.contains c (Pathlib.stem_of_name k)).
Qed.

(** X7: the two clean-up steps can run in either order: the directory that
    is left is the same, and holds exactly the files that are at least
    [threshold] bytes long and whose stem contains the substring, with
    their sizes. *)
Theorem X7_pruning_steps_commute (threshold : Z) (c : string) (w : world) :
  (_remove_empty_files threshold ;; _subset_output c) w =
    (_subset_output c ;; _remove_empty_files threshold) w ∧
  ∃ w',
    (_remove_empty_files threshold ;; _subset_output c) w = (Py.Ok tt, w') ∧
    log w' = log w ∧
    ∀ name size,
      results w' !! name = Some size ↔
      results w !! name = Some size ∧ threshold ≤ size ∧
      Py.contains c (Pathlib.stem_of_name name) = true.
Proof.
  destruct (_remove_empty_files_spec threshold w) as (w1 & H1 & Hl1 & Hr1).
  destruct (_subset_output_spec c w1) as (w2 & H2 & Hl2 & Hr2).
  destruct (_subset_output_spec c w) as (w3 & H3 & Hl3 & Hr3).
  destruct (_remove_empty_files_spec threshold w3) as (w4 & H4 & Hl4 & Hr4).
  unfold mbind, M_bind, bind. rewrite H1, H2, H3, H4.
  assert (Hlook : ∀ name size,
    results w2 !! name = Some size ↔
    results w !! name = Some size ∧ threshold ≤ size ∧
    Py.contains c (Pathlib.stem_of_name name) = true).
  { intros name size. rewrite Hr2, Hr1.
    destruct (results w !! name) as [x|]; cbn [mbind option_bind];
      [| by split; [| intros []]].
    destruct (Z.ltb_spec x threshold); cbn [mbind option_bind].
    - split; [done |]. intros (Hx & Hle & _). inversion Hx; subst. lia.
    - destruct (Py.contains c (Pathlib.stem_of_name name));
        cbn [mbind option_bind negb].
      + split; [intros Hx; inversion Hx; by subst |]. by intros [Hx _].
      + split; [done |]. by intros (_ & _ & ?). }
  split.
  - f_equal. apply world_eq; [congruence |]. intros k.
    rewrite Hr2, Hr1, Hr4, Hr3.
    destruct (results w !! k) as [size|]; cbn [mbind option_bind]; [| done].
    destruct (size <? threshold) eqn:Hs,
             (Py.contains c (Pathlib.stem_of_name k)) eqn:Hc;
      cbn [mbind option_bind negb]; rewrite ?Hs, ?Hc;
      cbn [mbind option_bind negb]; rewrite ?Hs, ?Hc; done.
  - exists w2. split; [reflexivity |]. split; [congruence | exact Hlook].
Qed.

(** X8: with the empty substring, the subset step keeps every file: the
    directory is left as it was. *)
Theorem X8_subset_output_empty (w : world) :
  _subset_output "" w = (Py.Ok tt, w).
Proof.
  destruct (_subset_output_spec "" w) as (w' & Hrun & Hlog & Hres).
  rewrite Hrun. f_equal. apply world_eq; [done |]. intros k.
  rewrite Hres. destruct (results w !! k); cbn [mbind option_bind]; [| done].
  by rewrite contains_empty.
Qed.

(** ** The window the engine receives *)

Section Window.

Variables (env : environment) (first last : Py.num).

Lemma triple_engine_window (c : Osim.call) :
  carries_window first last (Engine c) →
  triple (engine env c) (carries_window first last) (λ _, True) (λ _, True).
Proof. intros Hc. by apply triple_engine. Qed.

Ltac window_step :=
  first
    [ apply triple_engine_window; exact I
    | apply triple_engine_window; reflexivity
    | apply triple_emit; exact I
    | apply triple_ret; exact I
    | apply triple_raise; exact I
    | apply triple_lift; by repeat case_match
    | apply triple__remove_empty_files
    | apply triple__subset_output
    | apply triple_write_results
    | apply triple_when
    | apply triple_for_each; intros ?
    | apply triple_seq; [| intros ?]
    | match goal with
      | |- triple (match ?x with _ => _ end) _ _ _ => destruct x
      | |- triple (if ?b then _ else _) _ _ _ => destruct b
      end ].

Lemma triple_load_model_window (self : AnalyzeTool) :
  triple (load_model env self) (carries_window first last)
         (λ _, True) (λ _, True).
Proof. unfold load_model. repeat window_step. Qed.

Lemma triple_prepare_external_forces_window (self : AnalyzeTool)
    (trial stem : string) :
  triple (prepare_external_forces env self trial stem)
         (carries_window first last) (λ _, True) (λ _, True).
Proof. unfold prepare_external_forces. repeat window_step. Qed.

Lemma triple_build_analysis_window (self : AnalyzeTool) (current_class : string)
    (params : gmap string Py.value) :
  triple (build_analysis env self current_class params)
         (carries_window first last) (λ _, True) (λ _, True).
Proof. unfold build_analysis, array_of. repeat window_step. Qed.

Lemma triple_configure_analysis_window (self : AnalyzeTool)
    (current_class : string) (params : gmap string Py.value) :
  triple (configure_analysis env self current_class params first last)
         (carries_window first last) (λ _, True) (λ _, True).
Proof. unfold configure_analysis. repeat window_step. Qed.

Lemma triple_analyze_window (self : AnalyzeTool) (trial stem : string)
    (sfe : bool) (temp_xml : option string) :
  triple (analyze env self trial stem sfe first last temp_xml)
         (carries_window first last) (λ _, True) (λ _, True).
Proof. unfold analyze, run. repeat window_step. Qed.

Lemma triple_clean_up_window (self : AnalyzeTool) (temp_xml : option string) :
  triple (clean_up env self temp_xml) (carries_window first last)
         (λ _, True) (λ _, True).
Proof. unfold clean_up. repeat window_step. Qed.

End Window.

(** X9: whatever a trial does, every start time it gives the engine (to the
    analysis and to the analyze tool) is the start of its window, and every
    end time is the end of its window: the time range where it is given
    and is neither zero nor -1, the times of the motion file otherwise. *)
Theorem X9_engine_receives_window (env : environment) (self : AnalyzeTool)
    (p : string) (w : world) :
  ∃ evs,
    log (run_analyze_tool env self (AsPath p) w).2 = (log w ++ evs)%list ∧
    ∀ t,
      (Engine (Osim.Analysis_setStartTime t) ∈ evs ∨
       Engine (Osim.AnalyzeTool_setInitialTime t) ∈ evs →
       t = window_start env self p) ∧
      (Engine (Osim.Analysis_setEndTime t) ∈ evs ∨
       Engine (Osim.AnalyzeTool_setFinalTime t) ∈ evs →
       t = window_end env self p).
Proof.
  set (first := window_start env self p). set (last := window_end env self p).
  assert (Hrun : triple (run_analyze_tool env self (AsPath p))
                   (carries_window first last) (λ _, True) (λ _, True)).
  { unfold run_analyze_tool. apply triple_seq.
    { apply triple_lift. by destruct (skipped self (AsPath p)). }
    intros [|]; [by apply triple_ret |]. unfold process. cbn [path_stem].
    apply triple_seq; [by apply triple_lift | intros stem].
    apply triple_seq; [by apply triple_emit | intros _].
    unfold process_trial.
    apply triple_seq; [apply triple_load_model_window | intros _].
    eapply triple_bind.
    { apply triple_get_times_window. intros c Hc. by destruct c. }
    intros [f l] Hfl. inversion Hfl; subst f l. fold first last.
    apply triple_seq;
      [apply triple_prepare_external_forces_window | intros temp_xml].
    cbn zeta.
    apply triple_seq; [apply triple_lift; by case_match | intros params].
    apply triple_seq; [apply triple_build_analysis_window | intros sfe].
    apply triple_seq; [apply triple_configure_analysis_window | intros _].
    apply triple_seq; [apply triple_analyze_window | intros _].
    apply triple_clean_up_window. }
  destruct (Hrun w) as (evs & Hlog & Hevs & _). exists evs.
  split; [exact Hlog |]. intros t.
  rewrite Forall_forall in Hevs.
  split; intros [H|H]; by apply Hevs in H.
Qed.

(** ** A run that fails *)

Section FailedRun.

Variable env : environment.
Hypothesis run_raises : engine_raises env Osim.AnalyzeTool_run = true.

Lemma triple_engine_attached (c : Osim.call) :
  c ≠ Osim.Model_removeAnalysis →
  triple (engine env c) leaves_attached (λ _, True) (λ _, True).
Proof.
  intros Hc. apply triple_engine; [| done].
  split; [intros H; by inversion H | intros path H; by inversion H].
Qed.

Ltac attached_step :=
  first
    [ apply triple_engine_attached; discriminate
    | apply triple_emit; split; [discriminate | intros ?; discriminate]
    | apply triple_ret; exact I
    | apply triple_raise; exact I
    | apply triple_lift; by repeat case_match
    | apply triple_when
    | apply triple_for_each; intros ?
    | apply triple_seq; [| intros ?]
    | match goal with
      | |- triple (match ?x with _ => _ end) _ _ _ => destruct x
      | |- triple (if ?b then _ else _) _ _ _ => destruct b
      end ].

Lemma triple_run_raises (name : string) :
  triple (run env name) leaves_attached (λ _, False) (λ _, True).
Proof.
  intros w. exists [Engine Osim.AnalyzeTool_run].
  unfold run, engine, mbind, M_bind, bind, emit. rewrite run_raises. cbn.
  split; [reflexivity |]. split; [| exact I].
  apply Forall_singleton.
  split; [discriminate | intros ?; discriminate].
Qed.

Lemma triple_analyze_raises (self : AnalyzeTool) (trial stem : string)
    (sfe : bool) (first last : Py.num) (temp_xml : option string) :
  triple (analyze env self trial stem sfe first last temp_xml)
         leaves_attached (λ _, False) (λ _, True).
Proof.
  unfold analyze. repeat first [apply triple_run_raises | attached_step].
Qed.

Lemma triple_process_trial_raises (self : AnalyzeTool) (trial stem : string) :
  triple (process_trial env self trial stem)
         leaves_attached (λ _, False) (λ _, True).
Proof.
  unfold process_trial, load_model.
  apply triple_seq; [repeat attached_step | intros _].
  apply triple_seq; [unfold get_times; repeat attached_step | intros [f l]].
  apply triple_seq;
    [unfold prepare_external_forces; repeat attached_step | intros temp_xml].
  cbn zeta.
  apply triple_seq; [attached_step | intros params].
  apply triple_seq;
    [unfold build_analysis, array_of; repeat attached_step | intros sfe].
  apply triple_seq; [unfold configure_analysis; repeat attached_step | intros _].
  apply (triple_bind _ _ (λ _, False));
    [apply triple_analyze_raises | intros ? []].
Qed.

End FailedRun.

(** X10: when the engine's run fails, a processed trial ends with an
    error and nothing is tidied up: the analysis added to the model is
    never removed and the temporary external-loads file is never deleted
    (only a skipped trial returns). *)
Theorem X10_failed_run_leaves_analysis (env : environment)
    (self : AnalyzeTool) (p : string) (w : world) :
  engine_raises env Osim.AnalyzeTool_run = true →
  ∃ evs,
    log (run_analyze_tool env self (AsPath p) w).2 = (log w ++ evs)%list ∧
    (Engine Osim.Model_removeAnalysis ∉ evs) ∧
    (∀ path, Unlink path ∉ evs) ∧
    ((run_analyze_tool env self (AsPath p) w).1 = Py.Ok tt →
     skipped self (AsPath p) = Py.Ok true ∧ evs = []).
Proof.
  intros Hrun. rewrite skipped_path.
  destruct (match prefix self with
            | Some (String _ _ as pre) =>
                negb (Py.startswith (Pathlib.stem p) pre)
            | _ => false
            end) eqn:Hskip.
  - rewrite run_skipped by (by rewrite skipped_path, Hskip).
    exists []. cbn. rewrite app_nil_r.
    split; [done |]. split; [by apply not_elem_of_nil |].
    split; [intros path; by apply not_elem_of_nil | done].
  - rewrite run_not_skipped by (by rewrite skipped_path, Hskip).
    destruct (triple_process_trial_raises env Hrun self p (Pathlib.stem p)
                (World (log w ++ [Print (String "009" (Pathlib.stem p))])
                       (results w))) as (evs & Hlog & Hevs & Hr).
    exists (Print (String "009" (Pathlib.stem p)) :: evs).
    split; [by rewrite Hlog; cbn [log]; rewrite <- app_assoc |].
    rewrite Forall_forall in Hevs.
    split; [| split].
    + intros [H|H]%elem_of_cons; [discriminate H |].
      by destruct (Hevs _ H) as [Hne _].
    + intros path [H|H]%elem_of_cons; [discriminate H |].
      destruct (Hevs _ H) as [_ Hne]. by apply (Hne path).
    + intros Hok. by rewrite Hok in Hr.
Qed.

Lemma X10_failed_run_leaves_analysis_witness :
  ∃ evs,
    log (run_analyze_tool
           (Environment "/work" (λ _, Some so_template)
              (λ c, match c with Osim.AnalyzeTool_run => true | _ => false end)
              (λ _, 0%float) (λ _, 1%float) "wu.osim" (λ _ files, files)
              (λ _, Py.ParseError) (λ _, Py.RuntimeError "run failed"))
           (sample_self "StaticOptimization" None None None)
           (AsPath "wu_walk01.mot") empty_world).2 = evs ∧
    Engine Osim.Model_removeAnalysis ∉ evs.
Proof.
  destruct (X10_failed_run_leaves_analysis
              (Environment "/work" (λ _, Some so_template)
                 (λ c, match c with Osim.AnalyzeTool_run => true | _ => false end)
                 (λ _, 0%float) (λ _, 1%float) "wu.osim" (λ _ files, files)
                 (λ _, Py.ParseError) (λ _, Py.RuntimeError "run failed"))
              (sample_self "StaticOptimization" None None None)
              "wu_walk01.mot" empty_world eq_refl)
    as (evs & Hlog & Hno & _).
  exists evs. split; [exact Hlog | exact Hno].
Defined.

(** ** A run that returns: what it has done *)

(** X11: a processed trial that returns has attached its analysis to the
    model, then run the analyze tool, then removed the analysis from the
    model, in that order. *)
Theorem X11_returned_trial_detaches (env : environment) (self : AnalyzeTool)
    (p : string) (w : world) :
  skipped self (AsPath p) = Py.Ok false →
  (run_analyze_tool env self (AsPath p) w).1 = Py.Ok tt →
  ∃ evs,
    log (run_analyze_tool env self (AsPath p) w).2 =
      (log w ++ Print (String "009" (Pathlib.stem p)) :: evs)%list ∧
    sublist [Engine Osim.Model_addAnalysis; Engine Osim.AnalyzeTool_run;
             Engine Osim.Model_removeAnalysis] evs.
Proof.
  intros Hskip. rewrite (run_not_skipped env self p w Hskip). intros Hok.
  pose proof (visits_process_trial env self p (Pathlib.stem p)
    (World (log w ++ [Print (String "009" (Pathlib.stem p))]) (results w)))
    as H.
  rewrite Hok in H. destruct H as (evs & Hlog & Hsub). exists evs.
  split; [by rewrite Hlog; cbn [log]; rewrite <- app_assoc | exact Hsub].
Qed.

Lemma X11_returned_trial_detaches_witness :
  ∃ evs,
    log (run_analyze_tool (sample_env so_template)
           (sample_self "StaticOptimization" None None None)
           (AsPath "wu_walk01.mot") empty_world).2 =
      Print (String "009" "wu_walk01") :: evs ∧
    sublist [Engine Osim.Model_addAnalysis; Engine Osim.AnalyzeTool_run;
             Engine Osim.Model_removeAnalysis] evs.
Proof.
  apply (X11_returned_trial_detaches (sample_env so_template)
           (sample_self "StaticOptimization" None None None)
           "wu_walk01.mot" empty_world).
  - reflexivity.
  - vm_compute. reflexivity.
Defined.

(** ** The batch *)

Lemma for_each_app {A} (l1 l2 : list A) (body : A → M unit) (w : world) :
  for_each (l1 ++ l2) body w =
    match for_each l1 body w with
    | (Py.Ok _, w1) => for_each l2 body w1
    | (Py.Raise e, w1) => (Py.Raise e, w1)
    end.
Proof.
  revert w. induction l1 as [|x l1 IH]; intros w; [reflexivity |].
  cbn [app for_each]. unfold mbind, M_bind, bind.
  destruct (body x w) as [[[]|e] w1]; [apply IH | reflexivity].
Qed.

(** X12: without a worker pool the trials run in order and the first one
    that fails ends the batch: its error is the error of the batch, and the
    trials after it are never started (the state is the one the failing
    trial left). *)
Theorem X12_batch_stops_at_first_error (env : environment)
    (pool : (pathlike → M unit) → list pathlike → M unit)
    (self : AnalyzeTool) (done_ : list pathlike) (failing : pathlike)
    (rest : list pathlike) (e : Py.exn) (w w1 w2 : world) :
  multi self = false →
  mot_files self = (done_ ++ failing :: rest)%list →
  for_each done_ (run_analyze_tool env self) w = (Py.Ok tt, w1) →
  run_analyze_tool env self failing w1 = (Py.Raise e, w2) →
  main_loop env pool self w = (Py.Raise e, w2).
Proof.
  intros Hmulti Hfiles Hdone Hfail. unfold main_loop.
  rewrite Hmulti, Hfiles, for_each_app.
  change (for_each done_ (λ itrial, run_analyze_tool env self itrial) w)
    with (for_each done_ (run_analyze_tool env self) w).
  rewrite Hdone. cbn [for_each]. unfold mbind, M_bind, bind. by rewrite Hfail.
Qed.

Lemma X12_batch_stops_at_first_error_witness :
  main_loop (sample_env so_template) sequential_pool
    (with_trials (sample_self "StaticOptimization" (Some "wu") None None)
       [AsPath "ta_walk01.mot"; AsStr "wu_walk02.mot"; AsPath "wu_walk03.mot"])
    empty_world = (Py.Raise Py.AttributeError, empty_world).
Proof.
  apply (X12_batch_stops_at_first_error (sample_env so_template)
           sequential_pool _ [AsPath "ta_walk01.mot"] (AsStr "wu_walk02.mot")
           [AsPath "wu_walk03.mot"] Py.AttributeError empty_world empty_world
           empty_world); reflexivity.
Defined.

(** X13: with a prefix that no trial of the batch carries, the batch does
    nothing at all and reports nothing: it returns with the state
    unchanged. *)
Theorem X13_batch_all_skipped (env : environment)
    (pool : (pathlike → M unit) → list pathlike → M unit)
    (self : AnalyzeTool) (pre : string) (w : world) :
  multi self = false →
  prefix self = Some pre →
  Forall (λ t, ∃ p, t = AsPath p ∧
                    Py.startswith (Pathlib.stem p) pre = false)
         (mot_files self) →
  main_loop env pool self w = (Py.Ok tt, w).
Proof.
  intros Hmulti Hpre Hall. unfold main_loop. rewrite Hmulti.
  induction Hall as [|t ts (p & -> & Hp) _ IH]; [reflexivity |].
  cbn [for_each]. unfold mbind, M_bind, bind.
  rewrite run_skipped; [exact IH |].
  rewrite skipped_path, Hpre. destruct pre as [|c pre].
  - by rewrite startswith_empty in Hp.
  - by rewrite Hp.
Qed.

Lemma X13_batch_all_skipped_witness :
  main_loop (sample_env so_template) sequential_pool
    (with_trials (sample_self "StaticOptimization" (Some "wu") None None)
       [AsPath "ta_walk01.mot"; AsPath "ta_walk02.mot"])
    empty_world = (Py.Ok tt, empty_world).
Proof.
  apply (X13_batch_all_skipped (sample_env so_template) sequential_pool _ "wu");
    [reflexivity | reflexivity |].
  repeat (apply Forall_cons; split; [by eexists |]). apply Forall_nil. exact I.
Defined.

(** ** The trials as the constructor keeps them *)

Lemma normalise_examples :
  Pathlib.normalise "./ta_walk01.mot" = "ta_walk01.mot" ∧
  Pathlib.normalise "dir//ta_b.mot" = "dir/ta_b.mot" ∧
  Pathlib.normalise "ta_c.mot/" = "ta_c.mot" ∧
  Pathlib.normalise "/data/./wu_walk01.mot" = "/data/wu_walk01.mot" ∧
  Pathlib.normalise "" = ".".
Proof. repeat split; vm_compute; reflexivity. Qed.

(** X14: the constructor looks at the first trial only.  A str-led list
    (or a single str) becomes a list of Paths of the same length, where a
    str has become the Path of that str (its string normalised as pathlib
    does) and a Path is itself; a Path-led list is kept as it is, so a str
    left in it stays a str, and running a str trial raises AttributeError
    before anything is done; an empty list raises IndexError. *)
Theorem X14_trials_normalised_by_first (env : environment)
    (self : AnalyzeTool) (w : world) :
  (∀ arg files, set_mot_files arg = Py.Ok files →
     length files = length (given_trials arg) ∧
     ((∃ s, given_trials arg !! 0%nat = Some (AsStr s)) →
      Forall (λ t, ∃ p, t = AsPath p) files ∧
      Forall2 (λ t given,
                 t = AsPath (match given with
                             | AsStr s => Pathlib.normalise s
                             | AsPath p => p
                             end))
              files (given_trials arg)) ∧
     ((∃ p, given_trials arg !! 0%nat = Some (AsPath p)) →
      files = given_trials arg)) ∧
  (∀ arg, given_trials arg = [] ↔ set_mot_files arg = Py.Raise Py.IndexError) ∧
  (∀ s, run_analyze_tool env self (AsStr s) w = (Py.Raise Py.AttributeError, w)).
Proof.
  split; [| split].
  - intros arg files. unfold set_mot_files. fold (given_trials arg).
    unfold seq_index.
    destruct (given_trials arg) as [|[s|p] l] eqn:Hgiven; cbn;
      intros H; inversion H; subst files.
    + split; [cbn [length]; f_equal; apply length_fmap |]. split.
      * intros _. split.
        -- apply Forall_cons. split; [by eexists |].
           apply Forall_fmap, Forall_forall. intros [?|?] _; by eexists.
        -- apply Forall2_cons. split; [reflexivity |].
           apply Forall2_fmap_l, Forall2_same_length_lookup_2; [done |].
           intros i x y Hx Hy. rewrite Hx in Hy. inversion Hy; subst.
           by destruct y.
      * intros (p & Hp). inversion Hp.
    + split; [done |]. split; [| done]. intros (s & Hs). inversion Hs.
  - intros arg. unfold set_mot_files. fold (given_trials arg).
    unfold seq_index. destruct (given_trials arg) as [|[s|p] l]; by cbn.
  - intros s. unfold run_analyze_tool, skipped.
    destruct (prefix self) as [[|c pre]|]; reflexivity.
Qed.

(** ** A complete template *)

Section CompleteTemplate.

Variables (env : environment) (self : AnalyzeTool)
          (params : gmap string Py.value).
Hypothesis no_failure : ∀ c, engine_raises env c = false.

#[local] Abbreviation returns m :=
  (triple m (λ _, True) (λ _, True) (λ _, False)).

Lemma returns_engine (c : Osim.call) : returns (engine env c).
Proof.
  apply triple_engine; [exact I |]. intros H.
  by rewrite no_failure in H.
Qed.

Lemma returns_getitem (key : string) (v : Py.value) :
  params !! key = Some v →
  triple (lift (Py.getitem params key)) (λ _, True) (λ x, x = v) (λ _, False).
Proof. intros H. apply triple_lift. unfold Py.getitem. by rewrite H. Qed.

Lemma returns_int_ (v : Py.value) (n : Z) :
  Py.int_ v = Py.Ok n → returns (lift (Py.int_ v)).
Proof. intros H. apply triple_lift. by rewrite H. Qed.

Ltac returns_step :=
  first
    [ apply returns_engine
    | apply triple_emit; exact I
    | apply triple_ret; exact I
    | apply triple__remove_empty_files
    | apply triple__subset_output
    | apply triple_write_results
    | eapply triple_bind; [apply returns_getitem; eassumption | intros ? ->]
    | eapply returns_int_; eassumption
    | apply triple_lift; exact I
    | apply triple_when
    | apply triple_for_each; intros ?
    | apply triple_seq; [| intros ?]
    | match goal with
      | |- triple (match ?x with _ => _ end) _ _ _ => destruct x
      | |- triple (if ?b then _ else _) _ _ _ => destruct b
      end ].

Lemma returns_array_of (key : string) :
  holds_list params key → returns (array_of env params key).
Proof.
  intros (l & Hl). unfold array_of. repeat returns_step.
Qed.

Lemma returns_build_analysis :
  template_ok (class_name self) params →
  returns (build_analysis env self (class_name self) params).
Proof.
  intros (_ & _ & _ & Hclass). unfold build_analysis.
  destruct Hclass as [(-> & [? ?] & [? ?] & [? ?] & [? ?] & (? & ? & ? & ?))
                     |[(-> & Hcoord & Hmuscle)
                      |(-> & [? ?] & Hjoint & Hbody & Hframe)]];
    repeat case_decide; try done;
    repeat first
      [ apply triple_seq; [by apply returns_array_of | intros ?]
      | returns_step ].
Qed.

Lemma returns_configure_analysis (first last : Py.num) :
  template_ok (class_name self) params →
  returns (configure_analysis env self (class_name self) params first last).
Proof.
  intros ([? ?] & (? & ? & ? & ?) & [? ?] & _). unfold configure_analysis.
  repeat returns_step.
Qed.

Lemma returns_process_trial (trial stem : string) :
  (Py.str_truthy (xml_forces self) = true → is_Some (ext_forces_dir self)) →
  parse_analyze_set_xml env (xml_input self) (class_name self) = Py.Ok params →
  template_ok (class_name self) params →
  returns (process_trial env self trial stem).
Proof.
  intros Hdir Hparse Hok. unfold process_trial.
  apply triple_seq; [unfold load_model; repeat returns_step | intros _].
  apply triple_seq; [unfold get_times; repeat returns_step | intros [f l]].
  apply triple_seq.
  { unfold prepare_external_forces.
    destruct (xml_forces self) as [[|c xml]|]; try (by apply triple_ret).
    destruct (Hdir eq_refl) as [dir ->]. repeat returns_step. }
  intros temp_xml. cbn zeta. unfold get_class_name.
  apply (triple_bind _ _ (λ x, x = params));
    [apply triple_lift; by rewrite Hparse | intros ? ->].
  apply triple_seq; [by apply returns_build_analysis | intros sfe].
  apply triple_seq; [by apply returns_configure_analysis | intros _].
  apply triple_seq; [unfold analyze, run; repeat returns_step | intros _].
  unfold clean_up. repeat returns_step.
Qed.

End CompleteTemplate.

(** X15: when no engine call fails, the directory of the external forces
    is given whenever their template is, and the XML template holds, for
    one of the three analyses, every key the code reads (with a value that
    [int] accepts for the step interval and the iteration limit, and a
    token list for the names it iterates over), every trial returns without
    error. *)
Theorem X15_complete_template_returns (env : environment) (self : AnalyzeTool)
    (params : gmap string Py.value) (p : string) (w : world) :
  (∀ c, engine_raises env c = false) →
  (Py.str_truthy (xml_forces self) = true → is_Some (ext_forces_dir self)) →
  parse_analyze_set_xml env (xml_input self) (class_name self) = Py.Ok params →
  template_ok (class_name self) params →
  ∃ w', run_analyze_tool env self (AsPath p) w = (Py.Ok tt, w').
Proof.
  intros Hengine Hdir Hparse Hok.
  assert (Hrun : ∀ w0, ∃ w', run_analyze_tool env self (AsPath p) w0 =
                               (Py.Ok tt, w')).
  { intros w0.
    destruct (skipped self (AsPath p)) as [[|]|e] eqn:Hskip.
    - rewrite (run_skipped env self p w0 Hskip). by eexists.
    - rewrite (run_not_skipped env self p w0 Hskip).
      destruct (returns_process_trial env self params Hengine p
                  (Pathlib.stem p) Hdir Hparse Hok
                  (World (log w0 ++ [Print (String "009" (Pathlib.stem p))])
                         (results w0))) as (_ & _ & _ & Hr).
      destruct (process_trial _ _ _ _ _) as [[[]|e] w']; [by eexists | done].
    - by rewrite skipped_path in Hskip. }
  apply Hrun.
Qed.

Lemma X15_complete_template_returns_witness :
  ∃ w',
    run_analyze_tool (sample_env so_template)
      (sample_self "StaticOptimization" None None None)
      (AsPath "wu_walk01.mot") empty_world = (Py.Ok tt, w').
Proof.
  apply (X15_complete_template_returns (sample_env so_template)
           (sample_self "StaticOptimization" None None None) so_params).
  - intros c. reflexivity.
  - intros H. discriminate H.
  - vm_compute. reflexivity.
  - split; [by exists (Py.VBool true) |].
    split; [by exists (Py.VFloat 1), 1 |].
    split; [by exists (Py.VBool true) |].
    left. split; [reflexivity |].
    split; [by exists (Py.VBool false) |].
    split; [by exists (Py.VFloat 2) |].
    split; [by exists (Py.VBool true) |].
    split; [by exists (Py.VFloat 0x1.a36e2eb1c432dp-14) |].
    by exists (Py.VFloat 100), 100.
Defined.
